(** * The Mercury grade resolver of [runtime/mercury_conf_param.h]

    The header turns the macros given on the compiler command line and by
    the toolchain into the full set of configuration macros of a grade.
    Its directives are embedded here as functions on the macro table, in
    the order of the file; an [#error] ends the run with its message. *)

From Stdlib Require Import ZArith String Ascii List Btauto.
From stdpp Require Import gmap strings list fin_maps.
Import ListNotations.

Local Open Scope string_scope.
Local Open Scope Z_scope.

(** ** Macro tables *)

(** The replacement list of an object-like macro: empty ([#define X]) or
    an integer literal ([#define X 1]; [-DX] on the command line is
    [-DX=1]). *)
Inductive body : Type :=
  | Empty
  | Num (n : Z).

(** The preprocessor's macro table.  A flag is true when its macro is
    defined, whatever the body. *)
Abbreviation FlagStore := (gmap string body).

(** What a run of directives gives: the macro table, or the message of the
    [#error] that stopped it. *)
Inductive result (A : Type) : Type :=
  | Ok (a : A)
  | Err (msg : string).
Arguments Ok {A} a.
Arguments Err {A} msg.

Definition directive : Type := FlagStore -> result FlagStore.

Definition cond : Type := FlagStore -> bool.

(** [defined(M)] *)
Definition defined (m : string) : cond :=
  fun s => match s !! m with Some _ => true | None => false end.

Arguments defined m s : simpl never.

Definition cnot (c : cond) : cond := fun s => negb (c s).
Definition cor (c1 c2 : cond) : cond := fun s => c1 s || c2 s.
Definition cand (c1 c2 : cond) : cond := fun s => c1 s && c2 s.

Declare Scope cpp_scope.
Delimit Scope cpp_scope with cpp.
Notation "! c" := (cnot c) (at level 35, right associativity) : cpp_scope.
Notation "c1 '|||' c2" := (cor c1 c2) (at level 50, left associativity) : cpp_scope.
Notation "c1 '&&&' c2" := (cand c1 c2) (at level 40, left associativity) : cpp_scope.

(** [#define M] and [#define M n]; a macro defined already takes the new
    body. *)
Definition define (m : string) (b : body) : directive :=
  fun s => Ok (<[m := b]> s).

(** [#undef M] *)
Definition undef (m : string) : directive :=
  fun s => Ok (delete m s).

(** [#error msg] *)
Definition error (msg : string) : directive :=
  fun _ => Err msg.

Definition skip : directive := fun s => Ok s.

Definition seq (d1 d2 : directive) : directive :=
  fun s => match d1 s with
           | Ok s' => d2 s'
           | Err msg => Err msg
           end.

Notation "d1 ;; d2" := (seq d1 d2)
  (at level 100, d2 at level 200, right associativity) : cpp_scope.

(** [#if c ... #else ... #endif] *)
Definition if_else (c : cond) (d1 d2 : directive) : directive :=
  fun s => if c s then d1 s else d2 s.

(** [#if c ... #endif], [#ifdef M ... #endif] *)
Definition when (c : cond) (d : directive) : directive :=
  if_else c d skip.

(** The truth of an integer in [#if]: the preprocessor computes in the
    widest integer type, 64 bits wide, and keeps the low 64 bits of a
    constant that does not fit. *)
Definition cpp_true (n : Z) : bool := negb (Z.eqb (n mod 2 ^ 64) 0).

(** [#if M ... #endif] on the value of [M]: an undefined macro counts as 0,
    and a macro with an empty body leaves [#if] without an expression,
    which the preprocessor rejects.  Replacement lists other than an
    integer constant are not in [body]. *)
Definition when_value (m : string) (d : directive) : directive :=
  fun s => match s !! m with
           | None => Ok s
           | Some (Num n) => if cpp_true n then d s else Ok s
           | Some Empty => Err "#if with no expression"
           end.

(** The directives of a file, one after the other. *)
Fixpoint run (ds : list directive) : directive :=
  match ds with
  | [] => skip
  | d :: ds' => seq d (run ds')
  end.

Local Open Scope cpp_scope.

(** ** The header, section by section *)

Module Conf.

(** lines 342-347 *)
Definition stack_trace : directive :=
  when (defined "MR_STACK_TRACE")
    (error "MR_STACK_TRACE set independently") ;;
  when (defined "MR_EXEC_TRACE" ||| defined "MR_DEEP_PROFILING")
    (define "MR_STACK_TRACE" Empty).

(** lines 349-368 *)
Definition highlevel_debug : directive :=
  when (defined "MR_HIGHLEVEL_CODE")
    (when (defined "MR_LOWLEVEL_DEBUG")
       (error "MR_HIGHLEVEL_CODE and MR_LOWLEVEL_DEBUG are not supported together") ;;
     when (defined "MR_DEBUG_DD_BACK_END")
       (error "MR_HIGHLEVEL_CODE and MR_DEBUG_DD_BACK_END are not supported together") ;;
     when (defined "MR_DEBUG_GOTOS")
       (error "MR_HIGHLEVEL_CODE and MR_DEBUG_GOTOS are not supported together") ;;
     when (defined "MR_DEBUG_LABEL_NAMES")
       (error "MR_HIGHLEVEL_CODE and MR_DEBUG_LABEL_NAMES are not supported together") ;;
     when (defined "MR_LOWLEVEL_ADDR_DEBUG")
       (error "MR_HIGHLEVEL_CODE and MR_LOWLEVEL_ADDR_DEBUG are not supported together") ;;
     when (defined "MR_DEBUG_LVAL_REP")
       (error "MR_HIGHLEVEL_CODE and MR_DEBUG_LVAL_REP are not supported together")).

(** lines 370-377 *)
Definition debug_agc_all : directive :=
  when_value "MR_DEBUG_AGC_ALL"
    (define "MR_DEBUG_AGC_SCHEDULING" Empty ;;
     define "MR_DEBUG_AGC_COLLECTION" Empty ;;
     define "MR_DEBUG_AGC_FORWARDING" Empty ;;
     define "MR_DEBUG_AGC_SAVED_HPS" Empty ;;
     define "MR_DEBUG_AGC_PRINT_VARS" Empty ;;
     define "MR_DEBUG_AGC_SMALL_HEAP" Empty).

(** lines 438-449 *)
Definition highlevel_profiling : directive :=
  when (defined "MR_HIGHLEVEL_CODE")
    (when (defined "MR_DEEP_PROFILING")
       (error "MR_HIGHLEVEL_CODE and MR_DEEP_PROFILING both defined") ;;
     when (defined "MR_RECORD_TERM_SIZES")
       (error "MR_HIGHLEVEL_CODE and MR_RECORD_TERM_SIZES both defined")).

(** lines 490-504 *)
Definition thread_safe : directive :=
  when (defined "MR_THREAD_SAFE" &&& defined "MR_TRACE_HISTOGRAM")
    (error "MR_THREAD_SAFE and MR_TRACE_HISTOGRAM are not supported together") ;;
  when (defined "MR_THREAD_SAFE" &&& defined "MR_TYPE_CTOR_STATS")
    (error "MR_THREAD_SAFE and MR_TYPE_CTOR_STATS are not supported together") ;;
  when (defined "MR_THREAD_SAFE" &&& defined "MR_TABLE_STATISTICS")
    (error "MR_THREAD_SAFE and MR_TABLE_STATISTICS are not supported together") ;;
  when (defined "MR_THREAD_SAFE" &&& defined "MR_STACK_FRAME_STATS")
    (error "MR_THREAD_SAFE and MR_STACK_FRAME_STATS are not supported together").

(** lines 514-520; both messages name MR_USE_MINIMAL_MODEL_OWN_STACKS in
    the source *)
Definition minimal_model : directive :=
  when (defined "MR_USE_MINIMAL_MODEL_STACK_COPY" &&& ! defined "MR_CONSERVATIVE_GC")
    (error "MR_USE_MINIMAL_MODEL_OWN_STACKS requires MR_CONSERVATIVE_GC") ;;
  when (defined "MR_USE_MINIMAL_MODEL_OWN_STACKS" &&& ! defined "MR_CONSERVATIVE_GC")
    (error "MR_USE_MINIMAL_MODEL_OWN_STACKS requires MR_CONSERVATIVE_GC").

(** lines 529-531 *)
Definition exec_trace_info : directive :=
  when (defined "MR_USE_MINIMAL_MODEL_OWN_STACKS")
    (define "MR_EXEC_TRACE_INFO_IN_CONTEXT" Empty).

(** lines 533-535 *)
Definition minimal_model_debug : directive :=
  when (defined "MR_MINIMAL_MODEL_DEBUG")
    (define "MR_TABLE_STATISTICS" Empty).

(** lines 548-550 *)
Definition boxed_float : directive :=
  when (defined "MR_HIGHLEVEL_CODE")
    (define "MR_BOXED_FLOAT" (Num 1)).

(** lines 556-558 *)
Definition pic : directive :=
  when (defined "__pic__" ||| defined "__PIC__")
    (define "MR_PIC" (Num 1)).

(** lines 574-579 *)
Definition pic_reg : directive :=
  when (defined "MR_PIC")
    (define "MR_PIC_REG" (Num 1)) ;;
  when (defined "__CYGWIN__" ||| defined "_WIN32")
    (undef "MR_PIC_REG").

(** lines 582-585 *)
Definition lowlevel_debug : directive :=
  when (defined "MR_LOWLEVEL_DEBUG")
    (define "MR_DEBUG_GOTOS" Empty ;;
     define "MR_CHECK_FOR_OVERFLOW" Empty).

(** lines 601-614 *)
Definition deep_profiling : directive :=
  if_else (defined "MR_DEEP_PROFILING")
    (define "MR_DEEP_PROFILING_PORT_COUNTS" Empty ;;
     when (! defined "MR_DEEP_PROFILING_PERF_TEST")
       (define "MR_DEEP_PROFILING_TIMING" Empty ;;
        define "MR_DEEP_PROFILING_CALL_SEQ" Empty ;;
        define "MR_DEEP_PROFILING_MEMORY" Empty))
    (undef "MR_DEEP_PROFILING_PORT_COUNTS" ;;
     undef "MR_DEEP_PROFILING_TIMING" ;;
     undef "MR_DEEP_PROFILING_CALL_SEQ" ;;
     undef "MR_DEEP_PROFILING_MEMORY").

(** lines 616-618 *)
Definition check_du_eq : directive :=
  when (! defined "MR_DISABLE_CHECK_DU_EQ")
    (define "MR_CHECK_DU_EQ" Empty).

(** lines 640-646 *)
Definition conservative_gc : directive :=
  if_else (defined "MR_BOEHM_GC" ||| defined "MR_MPS_GC")
    (when (! defined "MR_CONSERVATIVE_GC")
       (define "MR_CONSERVATIVE_GC" Empty))
    (when (defined "MR_CONSERVATIVE_GC")
       (define "MR_BOEHM_GC" Empty)).

(** lines 657-659 *)
Definition might_reclaim_hp : directive :=
  when (! defined "MR_CONSERVATIVE_GC" &&& ! defined "MR_NATIVE_GC")
    (define "MR_MIGHT_RECLAIM_HP_ON_FAILURE" Empty).

(** lines 675-677 *)
Definition reclaim_hp : directive :=
  when (defined "MR_MIGHT_RECLAIM_HP_ON_FAILURE")
    (define "MR_RECLAIM_HP_ON_FAILURE" Empty).

(** lines 680-699 *)
Definition reclaim_hp_sanity : directive :=
  when (defined "MR_RECLAIM_HP_ON_FAILURE")
    (when (! defined "MR_MIGHT_RECLAIM_HP_ON_FAILURE")
       (error "MR_RECLAIM_HP_ON_FAILURE && ! MR_MIGHT_RECLAIM_HP_ON_FAILURE") ;;
     when (defined "MR_CONSERVATIVE_GC")
       (error "MR_RECLAIM_HP_ON_FAILURE and MR_CONSERVATIVE_GC both defined") ;;
     when (defined "MR_NATIVE_GC")
       (error "MR_RECLAIM_HP_ON_FAILURE and MR_NATIVE_GC both defined")).

(** lines 706-711 *)
Definition static_code_addresses : directive :=
  when (defined "MR_STATIC_CODE_ADDRESSES")
    (error "MR_STATIC_CODE_ADDRESSES should not be defined on the command line") ;;
  when (! defined "MR_USE_GCC_NONLOCAL_GOTOS" ||| defined "MR_USE_ASM_LABELS")
    (define "MR_STATIC_CODE_ADDRESSES" Empty).

(** lines 717-719 *)
Definition ll_parallel_conj : directive :=
  when (! defined "MR_HIGHLEVEL_CODE" &&& defined "MR_THREAD_SAFE")
    (define "MR_LL_PARALLEL_CONJ" Empty).

(** lines 729-732 *)
Definition debug_label_names : directive :=
  when (defined "MR_DEEP_PROFILING_LOWLEVEL_DEBUG" ||| defined "MR_TABLE_DEBUG"
        ||| defined "MR_DEBUG_RETRY")
    (define "MR_DEBUG_LABEL_NAMES" Empty).

(** lines 748-755 *)
Definition insert_labels : directive :=
  when (defined "MR_INSERT_LABELS")
    (error "MR_INSERT_LABELS should not be defined on the command line") ;;
  when (defined "MR_STACK_TRACE" ||| defined "MR_NATIVE_GC"
        ||| defined "MR_DEBUG_GOTOS" ||| defined "MR_BYTECODE_CALLABLE"
        ||| defined "MR_DEBUG_LABEL_NAMES")
    (define "MR_INSERT_LABELS" Empty).

(** lines 765-771 *)
Definition insert_entry_label_names : directive :=
  when (defined "MR_INSERT_ENTRY_LABEL_NAMES")
    (error "MR_INSERT_ENTRY_LABEL_NAMES should not be defined on the command line") ;;
  when (defined "MR_MPROF_PROFILE_CALLS" ||| defined "MR_DEBUG_GOTOS"
        ||| defined "MR_DEBUG_AGC_SCHEDULING" ||| defined "MR_DEBUG_LABEL_NAMES")
    (define "MR_INSERT_ENTRY_LABEL_NAMES" Empty).

(** lines 781-787 *)
Definition insert_internal_label_names : directive :=
  when (defined "MR_INSERT_INTERNAL_LABEL_NAMES")
    (error "MR_INSERT_INTERNAL_LABEL_NAMES should not be defined on the command line") ;;
  when (defined "MR_DEBUG_GOTOS" ||| defined "MR_DEBUG_AGC_SCHEDULING"
        ||| defined "MR_DEBUG_LABEL_NAMES")
    (define "MR_INSERT_INTERNAL_LABEL_NAMES" Empty).

(** lines 806-813 *)
Definition need_entry_label : directive :=
  when (defined "MR_NATIVE_GC" ||| defined "MR_DEBUG_GOTOS"
        ||| defined "MR_INSERT_ENTRY_LABEL_NAMES")
    (define "MR_NEED_ENTRY_LABEL_ARRAY" Empty) ;;
  when (defined "MR_NEED_ENTRY_LABEL_ARRAY" ||| defined "MR_MPROF_PROFILE_CALLS")
    (define "MR_NEED_ENTRY_LABEL_INFO" Empty).

(** lines 825-831 *)
Definition need_initialization_at_start : directive :=
  when (defined "MR_NEED_INITIALIZATION_AT_START")
    (error "MR_NEED_INITIALIZATION_AT_START should not be defined on the command line") ;;
  when (! defined "MR_STATIC_CODE_ADDRESSES" ||| defined "MR_MPROF_PROFILE_CALLS"
        ||| defined "MR_MPROF_PROFILE_TIME" ||| defined "MR_DEBUG_LABEL_NAMES")
    (define "MR_NEED_INITIALIZATION_AT_START" Empty).

(** lines 842-847 *)
Definition may_need_initialization : directive :=
  when (defined "MR_MAY_NEED_INITIALIZATION")
    (error "MR_MAY_NEED_INITIALIZATION should not be defined on the command line") ;;
  when (defined "MR_NEED_INITIALIZATION_AT_START" ||| defined "MR_INSERT_LABELS")
    (define "MR_MAY_NEED_INITIALIZATION" Empty).

(** lines 855-882 *)
Definition memory_protection : directive :=
  when (defined "MR_HAVE_SIGINFO" &&& defined "MR_PC_ACCESS")
    (define "MR_CAN_GET_PC_AT_SIGNAL" Empty) ;;
  when (defined "MR_HAVE_MPROTECT" &&& defined "MR_HAVE_SIGINFO" ||| defined "_WIN32")
    (define "MR_CHECK_OVERFLOW_VIA_MPROTECT" Empty) ;;
  when (defined "MR_HAVE_MPROTECT" ||| defined "_WIN32")
    (define "MR_PROTECTPAGE" Empty) ;;
  when (defined "_MSC_VER")
    (define "MR_MSVC_STRUCTURED_EXCEPTIONS" Empty).

(** lines 900-906 *)
Definition win32 : directive :=
  when (defined "_WIN32")
    (define "MR_WIN32" Empty ;;
     define "MR_WIN32_GETSYSTEMINFO" Empty ;;
     define "MR_WIN32_VIRTUAL_ALLOC" Empty ;;
     define "MR_WIN32_GETPROCESSTIMES" Empty ;;
     define "MR_BROKEN_ST_INO" Empty).

(** lines 914-916 *)
Definition mac_osx : directive :=
  when (defined "__APPLE__" &&& defined "__MACH__")
    (define "MR_MAC_OSX" Empty).

(** The directives up to the garbage-collector section (lines 342-618). *)
Definition checks_and_implied : list directive :=
  [ stack_trace; highlevel_debug; debug_agc_all; highlevel_profiling;
    thread_safe; minimal_model; exec_trace_info; minimal_model_debug;
    boxed_float; pic; pic_reg; lowlevel_debug; deep_profiling; check_du_eq ].

(** The parameters determined by other parameters (lines 640-847). *)
Definition determined : list directive :=
  [ conservative_gc; might_reclaim_hp; reclaim_hp; reclaim_hp_sanity;
    static_code_addresses; ll_parallel_conj; debug_label_names;
    insert_labels; insert_entry_label_names; insert_internal_label_names;
    need_entry_label; need_initialization_at_start;
    may_need_initialization ].

(** Memory protection and the platform sections (lines 855-916). *)
Definition platform_specific : list directive :=
  [ memory_protection; win32; mac_osx ].

End Conf.

(** All the directives of the body, in the order of the file. *)
Definition rules : list directive :=
  Conf.checks_and_implied ++ Conf.determined ++ Conf.platform_specific.

(** Lines 342-916, the body of the header inside its include guard. *)
Definition mercury_conf_param_body : directive := run rules.

(** The header, lines 30-920: its body is read, after the guard macro is
    defined, unless the guard macro is defined already. *)
Definition mercury_conf_param : directive :=
  when (! defined "MERCURY_CONF_PARAM_H")
    (define "MERCURY_CONF_PARAM_H" Empty ;; mercury_conf_param_body).

(** ** Resolution *)

(** [Resolve initial platform]: the resolution of the flags, done by the
    body of the header on the caller's macros and the toolchain's in one
    table (the preprocessor has a single name space; where both give a macro
    the caller's body stands).  On a table without the guard macro the
    header does the same and adds the guard macro ([first_inclusion]
    below). *)
Definition Resolve (initial platform : FlagStore) : result FlagStore :=
  mercury_conf_param_body (initial ∪ platform).

(** [Include initial platform]: the table after the header itself, guard
    included, is read with the caller's macros and the toolchain's. *)
Definition Include (initial platform : FlagStore) : result FlagStore :=
  mercury_conf_param (initial ∪ platform).

(** The table [-DM1 -DM2 ...] gives. *)
Definition flags (ms : list string) : FlagStore :=
  list_to_map (map (fun m => (m, Num 1)) ms).

(** ** Errors *)

(** Modelled from the spec: the error values of the resolver (its
    ConfigError), which the header does not have; the header has the text of
    its [#error] directives.  Flags are named as the spec names them, the
    macro name without its MR_ prefix. *)
Inductive ConfigError : Type :=
  | ReservedFlagSetExternally (name : string)
  | IncompatibleCombination (names : list string)
  | MissingPrerequisite (name requires : string).

(** The words of a message (split at spaces). *)
Fixpoint words (s : string) : list string :=
  match s with
  | EmptyString => [EmptyString]
  | String c s' =>
      if Ascii.eqb c " "%char then EmptyString :: words s'
      else match words s' with
           | w :: ws => String c w :: ws
           | [] => [String c EmptyString]
           end
  end.

Definition is_macro (w : string) : bool := String.prefix "MR_" w.

Definition flag_name (w : string) : string :=
  String.substring 3 (String.length w - 3) w.

Definition mentions (w : string) (ws : list string) : bool :=
  existsb (String.eqb w) ws.

(** Modelled from the spec: the error value for the message of an [#error]
    of the header.  The flags involved are the macros the message names, in
    its order; a message with "requires" reports a missing prerequisite, a
    message about one macro a reserved flag set by the caller, any other
    message about macros an incompatible combination. *)
Definition diagnose (msg : string) : option ConfigError :=
  let ws := words msg in
  let ns := map flag_name (List.filter is_macro ws) in
  if mentions "requires" ws then
    match ns with
    | [n; r] => Some (MissingPrerequisite n r)
    | _ => None
    end
  else
    match ns with
    | [] => None
    | [n] => Some (ReservedFlagSetExternally n)
    | _ => Some (IncompatibleCombination ns)
    end.

(** The error value of a failed resolution. *)
Definition error_of (r : result FlagStore) : option ConfigError :=
  match r with
  | Ok _ => None
  | Err msg => diagnose msg
  end.

(** A condition on the resolved configuration; false when resolution
    failed. *)
Definition holds (c : cond) (r : result FlagStore) : bool :=
  match r with
  | Ok s => c s
  | Err _ => false
  end.

Definition all_defined (ms : list string) : cond :=
  fun s => forallb (fun m => defined m s) ms.

Definition none_defined (ms : list string) : cond :=
  fun s => negb (existsb (fun m => defined m s) ms).

(** A macro given by the caller or by the toolchain. *)
Definition supplied (m : string) (initial platform : FlagStore) : Prop :=
  defined m (initial ∪ platform) = true.

(** ** Parts of the header the properties name *)

(** The directives before the minimal-model checks (lines 342-504). *)
Definition before_minimal_model : list directive :=
  [ Conf.stack_trace; Conf.highlevel_debug; Conf.debug_agc_all;
    Conf.highlevel_profiling; Conf.thread_safe ].

(** The directives before the sanity checks of lines 680-699. *)
Definition before_reclaim_hp_sanity : list directive :=
  (Conf.checks_and_implied
   ++ [ Conf.conservative_gc; Conf.might_reclaim_hp; Conf.reclaim_hp ])%list.

(** The message of lines 680-699 for a table with MR_RECLAIM_HP_ON_FAILURE
    and MR_CONSERVATIVE_GC: line 682 when MR_MIGHT_RECLAIM_HP_ON_FAILURE is
    not defined, line 689 when it is. *)
Definition reclaim_hp_error (might : bool) : string :=
  if might then "MR_RECLAIM_HP_ON_FAILURE and MR_CONSERVATIVE_GC both defined"
  else "MR_RECLAIM_HP_ON_FAILURE && ! MR_MIGHT_RECLAIM_HP_ON_FAILURE".

(** The debugging modes lines 349-368 test, in their order. *)
Definition lowlevel_debug_modes : list string :=
  [ "MR_LOWLEVEL_DEBUG"; "MR_DEBUG_DD_BACK_END"; "MR_DEBUG_GOTOS";
    "MR_DEBUG_LABEL_NAMES"; "MR_LOWLEVEL_ADDR_DEBUG"; "MR_DEBUG_LVAL_REP" ].

(** The messages of lines 349-368 and 490-504. *)
Definition not_supported_together (a b : string) : string :=
  a ++ " and " ++ b ++ " are not supported together".

(** What a directive establishes when it raises no error. *)
Definition post (res : result FlagStore) (P : FlagStore -> Prop) : Prop :=
  match res with
  | Ok s' => P s'
  | Err _ => True
  end.

(** Directives that leave a macro as it is. *)
Definition preserves (m : string) (d : directive) : Prop :=
  forall s s', d s = Ok s' -> s' !! m = s !! m.

(** ** The header as a whole *)

Definition succeeds (r : result FlagStore) : bool :=
  match r with
  | Ok _ => true
  | Err _ => false
  end.

(** The macros the header has a [#define] or an [#undef] for. *)
Definition written_macros : list string :=
  [ "MERCURY_CONF_PARAM_H"; "MR_STACK_TRACE";
    "MR_DEBUG_AGC_SCHEDULING"; "MR_DEBUG_AGC_COLLECTION";
    "MR_DEBUG_AGC_FORWARDING"; "MR_DEBUG_AGC_SAVED_HPS";
    "MR_DEBUG_AGC_PRINT_VARS"; "MR_DEBUG_AGC_SMALL_HEAP";
    "MR_EXEC_TRACE_INFO_IN_CONTEXT"; "MR_TABLE_STATISTICS"; "MR_BOXED_FLOAT";
    "MR_PIC"; "MR_PIC_REG"; "MR_DEBUG_GOTOS"; "MR_CHECK_FOR_OVERFLOW";
    "MR_DEEP_PROFILING_PORT_COUNTS"; "MR_DEEP_PROFILING_TIMING";
    "MR_DEEP_PROFILING_CALL_SEQ"; "MR_DEEP_PROFILING_MEMORY";
    "MR_CHECK_DU_EQ"; "MR_CONSERVATIVE_GC"; "MR_BOEHM_GC";
    "MR_MIGHT_RECLAIM_HP_ON_FAILURE"; "MR_RECLAIM_HP_ON_FAILURE";
    "MR_STATIC_CODE_ADDRESSES"; "MR_LL_PARALLEL_CONJ"; "MR_DEBUG_LABEL_NAMES";
    "MR_INSERT_LABELS"; "MR_INSERT_ENTRY_LABEL_NAMES";
    "MR_INSERT_INTERNAL_LABEL_NAMES"; "MR_NEED_ENTRY_LABEL_ARRAY";
    "MR_NEED_ENTRY_LABEL_INFO"; "MR_NEED_INITIALIZATION_AT_START";
    "MR_MAY_NEED_INITIALIZATION"; "MR_CAN_GET_PC_AT_SIGNAL";
    "MR_CHECK_OVERFLOW_VIA_MPROTECT"; "MR_PROTECTPAGE";
    "MR_MSVC_STRUCTURED_EXCEPTIONS"; "MR_WIN32"; "MR_WIN32_GETSYSTEMINFO";
    "MR_WIN32_VIRTUAL_ALLOC"; "MR_WIN32_GETPROCESSTIMES"; "MR_BROKEN_ST_INO";
    "MR_MAC_OSX" ].

(** The macros the header has an [#undef] for (lines 578, 610-613). *)
Definition undefined_macros : list string :=
  [ "MR_PIC_REG"; "MR_DEEP_PROFILING_PORT_COUNTS"; "MR_DEEP_PROFILING_TIMING";
    "MR_DEEP_PROFILING_CALL_SEQ"; "MR_DEEP_PROFILING_MEMORY" ].

(** Directives that leave a defined macro defined. *)
Definition keeps (m : string) (d : directive) : Prop :=
  forall s s', d s = Ok s' -> defined m s = true -> defined m s' = true.

(** ** When the header raises no error *)

(** Line 370 is well formed: MR_DEBUG_AGC_ALL is not defined with an empty
    body. *)
Definition agc_all_ok : cond :=
  fun s => match s !! "MR_DEBUG_AGC_ALL" with
           | Some Empty => false
           | _ => true
           end.

(** Lines 349-368: not MR_HIGHLEVEL_CODE with a low-level debugging mode. *)
Definition highlevel_debug_ok : cond :=
  fun s => negb (defined "MR_HIGHLEVEL_CODE" s
                 && existsb (fun m => defined m s) lowlevel_debug_modes).

(** Lines 438-449. *)
Definition highlevel_profiling_ok : cond :=
  fun s => negb (defined "MR_HIGHLEVEL_CODE" s
                 && (defined "MR_DEEP_PROFILING" s
                     || defined "MR_RECORD_TERM_SIZES" s)).

(** Lines 490-504. *)
Definition thread_safe_ok : cond :=
  fun s => negb (defined "MR_THREAD_SAFE" s
                 && existsb (fun m => defined m s)
                      [ "MR_TRACE_HISTOGRAM"; "MR_TYPE_CTOR_STATS";
                        "MR_TABLE_STATISTICS"; "MR_STACK_FRAME_STATS" ]).

(** Lines 514-520. *)
Definition minimal_model_ok : cond :=
  fun s => negb ((defined "MR_USE_MINIMAL_MODEL_STACK_COPY" s
                  || defined "MR_USE_MINIMAL_MODEL_OWN_STACKS" s)
                 && negb (defined "MR_CONSERVATIVE_GC" s)).

(** Lines 640-699: with a collector, conservative or native, neither
    reclamation macro is supplied. *)
Definition reclaim_hp_ok : cond :=
  fun s => negb ((defined "MR_CONSERVATIVE_GC" s || defined "MR_BOEHM_GC" s
                  || defined "MR_MPS_GC" s || defined "MR_NATIVE_GC" s)
                 && (defined "MR_RECLAIM_HP_ON_FAILURE" s
                     || defined "MR_MIGHT_RECLAIM_HP_ON_FAILURE" s)).

(** The inputs on which no [#error] of the header is reached, and line 370
    is well formed. *)
Definition resolvable : cond :=
  fun s =>
    negb (defined "MR_STACK_TRACE" s)
    && highlevel_debug_ok s
    && agc_all_ok s
    && highlevel_profiling_ok s
    && thread_safe_ok s
    && minimal_model_ok s
    && reclaim_hp_ok s
    && negb (defined "MR_STATIC_CODE_ADDRESSES" s)
    && negb (defined "MR_INSERT_LABELS" s)
    && negb (defined "MR_INSERT_ENTRY_LABEL_NAMES" s)
    && negb (defined "MR_INSERT_INTERNAL_LABEL_NAMES" s)
    && negb (defined "MR_NEED_INITIALIZATION_AT_START" s)
    && negb (defined "MR_MAY_NEED_INITIALIZATION" s).

Definition always : cond := fun _ => true.

(** The directives of the header, each with the condition on the table the
    header starts from under which it raises no error; lines 640-699 are
    taken together. *)
Definition header_checks : list (directive * cond) :=
  [ (Conf.stack_trace, fun s => negb (defined "MR_STACK_TRACE" s));
    (Conf.highlevel_debug, highlevel_debug_ok);
    (Conf.debug_agc_all, agc_all_ok);
    (Conf.highlevel_profiling, highlevel_profiling_ok);
    (Conf.thread_safe, thread_safe_ok);
    (Conf.minimal_model, minimal_model_ok);
    (Conf.exec_trace_info, always);
    (Conf.minimal_model_debug, always);
    (Conf.boxed_float, always);
    (Conf.pic, always);
    (Conf.pic_reg, always);
    (Conf.lowlevel_debug, always);
    (Conf.deep_profiling, always);
    (Conf.check_du_eq, always);
    (run [ Conf.conservative_gc; Conf.might_reclaim_hp; Conf.reclaim_hp;
           Conf.reclaim_hp_sanity ], reclaim_hp_ok);
    (Conf.static_code_addresses,
     fun s => negb (defined "MR_STATIC_CODE_ADDRESSES" s));
    (Conf.ll_parallel_conj, always);
    (Conf.debug_label_names, always);
    (Conf.insert_labels, fun s => negb (defined "MR_INSERT_LABELS" s));
    (Conf.insert_entry_label_names,
     fun s => negb (defined "MR_INSERT_ENTRY_LABEL_NAMES" s));
    (Conf.insert_internal_label_names,
     fun s => negb (defined "MR_INSERT_INTERNAL_LABEL_NAMES" s));
    (Conf.need_entry_label, always);
    (Conf.need_initialization_at_start,
     fun s => negb (defined "MR_NEED_INITIALIZATION_AT_START" s));
    (Conf.may_need_initialization,
     fun s => negb (defined "MR_MAY_NEED_INITIALIZATION" s));
    (Conf.memory_protection, always);
    (Conf.win32, always);
    (Conf.mac_osx, always) ].

(** A directive raises no error exactly on its condition, and leaves the
    conditions of the directives after it as they are. *)
Inductive checked : list (directive * cond) -> Prop :=
  | checked_nil : checked []
  | checked_cons d c ds :
      (forall s, succeeds (d s) = c s) ->
      Forall (fun dc => forall s s', d s = Ok s' -> snd dc s' = snd dc s) ds ->
      checked ds ->
      checked ((d, c) :: ds).

(** The macros of the compiler and of the configuration script that the
    header tests. *)
Definition platform_facts : list string :=
  [ "__pic__"; "__PIC__"; "__CYGWIN__"; "_WIN32"; "_MSC_VER"; "__APPLE__";
    "__MACH__"; "MR_HAVE_SIGINFO"; "MR_PC_ACCESS"; "MR_HAVE_MPROTECT" ].

(** The macros the header refuses from the command line (lines 342-344,
    706-708, 748-750, 765-767, 781-783, 825-827, 842-844). *)
Definition reserved_macros : list string :=
  [ "MR_STACK_TRACE"; "MR_STATIC_CODE_ADDRESSES"; "MR_INSERT_LABELS";
    "MR_INSERT_ENTRY_LABEL_NAMES"; "MR_INSERT_INTERNAL_LABEL_NAMES";
    "MR_NEED_INITIALIZATION_AT_START"; "MR_MAY_NEED_INITIALIZATION" ].

(** [m] is defined with the integer body [n]. *)
Definition has_value (m : string) (n : Z) : cond :=
  fun s => match s !! m with
           | Some (Num k) => Z.eqb k n
           | _ => false
           end.

(** The macros MR_DEBUG_AGC_ALL stands for (lines 371-376). *)
Definition debug_agc_macros : list string :=
  [ "MR_DEBUG_AGC_SCHEDULING"; "MR_DEBUG_AGC_COLLECTION";
    "MR_DEBUG_AGC_FORWARDING"; "MR_DEBUG_AGC_SAVED_HPS";
    "MR_DEBUG_AGC_PRINT_VARS"; "MR_DEBUG_AGC_SMALL_HEAP" ].

(** MR_DEBUG_AGC_ALL is defined with an integer body that [#if] takes as
    true. *)
Definition agc_all_set : cond :=
  fun s => match s !! "MR_DEBUG_AGC_ALL" with
           | Some (Num n) => cpp_true n
           | _ => false
           end.

(** Directives that neither test nor write the macro [g]: they do the same
    with [g] defined, and leave it defined. *)
Definition blind (g : string) (d : directive) : Prop :=
  forall b s, d (<[g := b]> s)
              = match d s with
                | Ok s' => Ok (<[g := b]> s')
                | Err msg => Err msg
                end.

Definition cond_blind (g : string) (c : cond) : Prop :=
  forall b s, c (<[g := b]> s) = c s.

(** * Properties *)

(** ** Sequencing *)

Lemma seq_ok (d1 d2 : directive) s r :
  seq d1 d2 s = Ok r -> exists s1, d1 s = Ok s1 /\ d2 s1 = Ok r.
Proof.
  unfold seq. destruct (d1 s) as [s1|msg] eqn:E; [eauto | discriminate].
Qed.

Lemma seq_err_l (d1 d2 : directive) s msg :
  d1 s = Err msg -> seq d1 d2 s = Err msg.
Proof. unfold seq. intros ->. reflexivity. Qed.

Lemma seq_ok_l (d1 d2 : directive) s s1 :
  d1 s = Ok s1 -> seq d1 d2 s = d2 s1.
Proof. unfold seq. intros ->. reflexivity. Qed.

Lemma seq_intro (d1 d2 : directive) s s1 s2 :
  d1 s = Ok s1 -> d2 s1 = Ok s2 -> seq d1 d2 s = Ok s2.
Proof. intros H1 H2. rewrite (seq_ok_l _ _ _ _ H1). exact H2. Qed.

Lemma run_app (l1 l2 : list directive) s :
  run (l1 ++ l2) s = seq (run l1) (run l2) s.
Proof.
  revert s. induction l1 as [|d l1 IH]; intros s; simpl.
  - reflexivity.
  - unfold seq in *. destruct (d s) as [s1|msg]; [apply IH | reflexivity].
Qed.

(** An error raised by some directives is the error of any run that starts
    with them. *)
Lemma run_app_err (l1 l2 : list directive) s msg :
  run l1 s = Err msg -> run (l1 ++ l2) s = Err msg.
Proof. intros H. rewrite run_app. apply seq_err_l, H. Qed.

Lemma run_app_ok (l1 l2 : list directive) s s1 :
  run l1 s = Ok s1 -> run (l1 ++ l2) s = run l2 s1.
Proof. intros H. rewrite run_app. apply seq_ok_l, H. Qed.

(** ** Directives that leave a macro alone *)

Section Preserves.
Variable m : string.

Lemma preserves_skip : preserves m skip.
Proof. intros s s' [= <-]. reflexivity. Qed.

Lemma preserves_error msg : preserves m (error msg).
Proof. intros s s' [=]. Qed.

Lemma preserves_define m' b : m' <> m -> preserves m (define m' b).
Proof. intros Hne s s' [= <-]. apply lookup_insert_ne, Hne. Qed.

Lemma preserves_undef m' : m' <> m -> preserves m (undef m').
Proof. intros Hne s s' [= <-]. apply lookup_delete_ne, Hne. Qed.

Lemma preserves_seq d1 d2 :
  preserves m d1 -> preserves m d2 -> preserves m (seq d1 d2).
Proof.
  intros H1 H2 s s' H. apply seq_ok in H as (s1 & E1 & E2).
  rewrite (H2 _ _ E2). apply (H1 _ _ E1).
Qed.

Lemma preserves_if_else c d1 d2 :
  preserves m d1 -> preserves m d2 -> preserves m (if_else c d1 d2).
Proof.
  intros H1 H2 s s'. unfold if_else. destruct (c s); [apply H1 | apply H2].
Qed.

Lemma preserves_when c d : preserves m d -> preserves m (when c d).
Proof. intros H. apply preserves_if_else; [exact H | apply preserves_skip]. Qed.

Lemma preserves_when_value m' d : preserves m d -> preserves m (when_value m' d).
Proof.
  intros H s s'. unfold when_value.
  destruct (s !! m') as [[|n]|]; [discriminate | | intros [= <-]; reflexivity].
  destruct (cpp_true n); [apply H | intros [= <-]; reflexivity].
Qed.

Lemma preserves_run ds : Forall (preserves m) ds -> preserves m (run ds).
Proof.
  induction 1 as [|d ds Hd _ IH]; simpl.
  - apply preserves_skip.
  - apply preserves_seq; assumption.
Qed.
End Preserves.

Create HintDb conf discriminated.
#[local] Hint Unfold Conf.stack_trace Conf.highlevel_debug Conf.debug_agc_all
  Conf.highlevel_profiling Conf.thread_safe Conf.minimal_model
  Conf.exec_trace_info Conf.minimal_model_debug Conf.boxed_float Conf.pic
  Conf.pic_reg Conf.lowlevel_debug Conf.deep_profiling Conf.check_du_eq
  Conf.conservative_gc Conf.might_reclaim_hp Conf.reclaim_hp
  Conf.reclaim_hp_sanity Conf.static_code_addresses Conf.ll_parallel_conj
  Conf.debug_label_names Conf.insert_labels Conf.insert_entry_label_names
  Conf.insert_internal_label_names Conf.need_entry_label
  Conf.need_initialization_at_start Conf.may_need_initialization
  Conf.memory_protection Conf.win32 Conf.mac_osx : conf.

(** Decides [preserves m d] for a directive of the header that does not
    write [m]. *)
Ltac frame :=
  autounfold with conf;
  repeat first
    [ apply preserves_seq
    | apply preserves_when
    | apply preserves_if_else
    | apply preserves_when_value
    | apply preserves_error
    | apply preserves_skip
    | apply preserves_define; discriminate
    | apply preserves_undef; discriminate ].

Ltac frames :=
  apply preserves_run;
  cbv [rules Conf.checks_and_implied Conf.determined Conf.platform_specific
       app take drop];
  repeat (constructor; [solve [frame]|]); constructor.

(** ** Reading the macro table *)

Lemma defined_true m (s : FlagStore) : defined m s = true <-> is_Some (s !! m).
Proof.
  unfold defined. destruct (s !! m) as [b|]; split; intros H;
    try reflexivity; try discriminate; eauto.
  destruct H as [? [=]].
Qed.

Lemma defined_lookup m (s s' : FlagStore) :
  s' !! m = s !! m -> defined m s' = defined m s.
Proof. unfold defined. intros ->. reflexivity. Qed.

Lemma defined_insert_eq m b (s : FlagStore) : defined m (<[m := b]> s) = true.
Proof. unfold defined. rewrite lookup_insert_eq. reflexivity. Qed.

Lemma defined_insert_ne m m' b (s : FlagStore) :
  m' <> m -> defined m (<[m' := b]> s) = defined m s.
Proof. intros H. apply defined_lookup, lookup_insert_ne, H. Qed.

Lemma defined_delete_eq m (s : FlagStore) : defined m (delete m s) = false.
Proof. unfold defined. rewrite lookup_delete_eq. reflexivity. Qed.

Lemma defined_delete_ne m m' (s : FlagStore) :
  m' <> m -> defined m (delete m' s) = defined m s.
Proof. intros H. apply defined_lookup, lookup_delete_ne, H. Qed.

(** What the caller defines is defined in the table the header reads. *)
Lemma defined_union_l m (initial platform : FlagStore) :
  defined m initial = true -> defined m (initial ∪ platform) = true.
Proof.
  rewrite !defined_true. intros [b Hb]. exists b.
  apply lookup_union_Some_l, Hb.
Qed.

Lemma preserves_defined m d s s' :
  preserves m d -> d s = Ok s' -> defined m s' = defined m s.
Proof. intros H E. apply defined_lookup, (H _ _ E). Qed.

(** ** Splitting the header at a directive *)

Lemma run_rules_split k s r :
  run rules s = Ok r ->
  exists s1, run (take k rules) s = Ok s1 /\ run (drop k rules) s1 = Ok r.
Proof.
  rewrite <- (take_drop k rules) at 1. rewrite run_app. apply seq_ok.
Qed.

Lemma run_cons_ok d ds s r :
  run (d :: ds) s = Ok r -> exists s1, d s = Ok s1 /\ run ds s1 = Ok r.
Proof. simpl. apply seq_ok. Qed.

Lemma post_ok res P s' : post res P -> res = Ok s' -> P s'.
Proof. intros H ->. exact H. Qed.

(** ** Running directives on a symbolic table *)

Ltac unfold_directives :=
  autounfold with conf;
  cbv [seq when if_else skip error define undef cor cand cnot] in *.

(** Reads macros through the [#define]s and [#undef]s done so far. *)
Ltac simpl_defined :=
  repeat first
    [ rewrite defined_insert_eq
    | rewrite defined_delete_eq
    | rewrite defined_insert_ne by discriminate
    | rewrite defined_delete_ne by discriminate ].

Ltac use_known :=
  repeat match goal with
    | H : defined ?m ?s = _ |- context [defined ?m ?s] => rewrite H
    end.

(** Runs the directives in the goal, by cases on the macros they test. *)
Ltac exec :=
  unfold post; unfold_directives;
  repeat first
    [ progress (cbn [negb orb andb]; simpl_defined; use_known)
    | match goal with
      | |- context [if ?c then _ else _] =>
          match c with
          | context [defined ?m ?s] =>
              is_var s;
              destruct (defined m s) eqn:?; cbn [negb orb andb] in *
          end
      end ].

(** Closes an equation between conditions by cases on the macros left. *)
Ltac finish :=
  try congruence;
  repeat match goal with
    | |- context [defined ?m ?s] => destruct (defined m s) eqn:?
    end;
  cbn [negb orb andb] in *; congruence.

(** A condition computed true on a resolution is a fact about the resolved
    configuration. *)
Lemma holds_ok (c : cond) (res : result FlagStore) :
  holds c res = true -> exists r, res = Ok r /\ c r = true.
Proof. destruct res as [r|msg]; simpl; [eauto | discriminate]. Qed.

(** ** Stack traces (lines 342-347) *)

Lemma stack_trace_post s :
  post (Conf.stack_trace s) (fun s' =>
    defined "MR_STACK_TRACE" s = false /\
    defined "MR_STACK_TRACE" s'
    = defined "MR_EXEC_TRACE" s || defined "MR_DEEP_PROFILING" s).
Proof. exec; split; finish. Qed.

Lemma stack_trace_reserved s :
  defined "MR_STACK_TRACE" s = true ->
  run rules s = Err "MR_STACK_TRACE set independently".
Proof.
  intros H. change (run rules s) with (seq Conf.stack_trace (run (drop 1 rules)) s).
  apply seq_err_l. unfold_directives. rewrite H. reflexivity.
Qed.

Lemma after_stack_trace : preserves "MR_STACK_TRACE" (run (drop 1 rules)).
Proof. frames. Qed.

(** The resolved configuration of a request for tracing or deep profiling
    has MR_STACK_TRACE. *)
Lemma resolved_stack_trace s r :
  run rules s = Ok r ->
  defined "MR_STACK_TRACE" r
  = defined "MR_EXEC_TRACE" s || defined "MR_DEEP_PROFILING" s.
Proof.
  intros H.
  change rules with (Conf.stack_trace :: drop 1 rules) in H.
  apply run_cons_ok in H as (s1 & H1 & H2).
  rewrite (preserves_defined _ _ _ _ after_stack_trace H2).
  apply (post_ok _ _ _ (stack_trace_post s) H1).
Qed.

(** C5. Stack-trace support is resolved true exactly when execution tracing
    or deep profiling is given: whenever resolution succeeds, the resolved
    configuration has MR_STACK_TRACE defined if and only if MR_EXEC_TRACE or
    MR_DEEP_PROFILING was supplied; and an initial assignment that sets
    MR_STACK_TRACE itself fails with ReservedFlagSetExternally. *)
Theorem C5_stack_trace_iff_tracing (initial platform : FlagStore) :
  (forall r, Resolve initial platform = Ok r ->
     (defined "MR_STACK_TRACE" r = true <->
      supplied "MR_EXEC_TRACE" initial platform \/
      supplied "MR_DEEP_PROFILING" initial platform)) /\
  (defined "MR_STACK_TRACE" initial = true ->
     Resolve initial platform = Err "MR_STACK_TRACE set independently" /\
     error_of (Resolve initial platform)
       = Some (ReservedFlagSetExternally "STACK_TRACE")).
Proof.
  unfold Resolve, mercury_conf_param_body, supplied. split.
  - intros r H. rewrite (resolved_stack_trace _ _ H). apply orb_true_iff.
  - intros H. apply (defined_union_l _ _ platform) in H.
    rewrite (stack_trace_reserved _ H). split; reflexivity.
Qed.

Lemma C5_witness :
  exists r, Resolve (flags ["MR_EXEC_TRACE"]) ∅ = Ok r /\
    defined "MR_STACK_TRACE" r = true.
Proof.
  destruct (holds_ok (fun _ => true) (Resolve (flags ["MR_EXEC_TRACE"]) ∅))
    as (r & E & _); [vm_compute; reflexivity|].
  exists r. split; [exact E|].
  apply (proj1 (C5_stack_trace_iff_tracing (flags ["MR_EXEC_TRACE"]) ∅) r E).
  left. vm_compute. reflexivity.
Defined.

(** C9. With only deep profiling requested and no platform fact, resolution
    succeeds and defines MR_STACK_TRACE and the four measurement macros; with
    MR_DEEP_PROFILING_PERF_TEST requested too, the port counts are still
    defined and the timing, call-sequence and memory macros are not. *)
Theorem C9_deep_profiling_bundle :
  (exists r, Resolve (flags ["MR_DEEP_PROFILING"]) ∅ = Ok r /\
     all_defined
       ["MR_STACK_TRACE"; "MR_DEEP_PROFILING_PORT_COUNTS";
        "MR_DEEP_PROFILING_TIMING"; "MR_DEEP_PROFILING_CALL_SEQ";
        "MR_DEEP_PROFILING_MEMORY"] r = true) /\
  (exists r,
     Resolve (flags ["MR_DEEP_PROFILING"; "MR_DEEP_PROFILING_PERF_TEST"]) ∅
       = Ok r /\
     (defined "MR_DEEP_PROFILING_PORT_COUNTS" &&&
      none_defined
        ["MR_DEEP_PROFILING_TIMING"; "MR_DEEP_PROFILING_CALL_SEQ";
         "MR_DEEP_PROFILING_MEMORY"]) r = true).
Proof.
  split; apply holds_ok; vm_compute; reflexivity.
Qed.

(** C10. A conflict is checked against the table as it is at the directive:
    MR_THREAD_SAFE with MR_MINIMAL_MODEL_DEBUG resolves, and the resolved
    configuration has both MR_THREAD_SAFE and MR_TABLE_STATISTICS, although
    MR_THREAD_SAFE with MR_TABLE_STATISTICS requested is refused as an
    incompatible combination. *)
Theorem C10_conflict_checked_before_implication :
  (exists r,
     Resolve (flags ["MR_THREAD_SAFE"; "MR_MINIMAL_MODEL_DEBUG"]) ∅ = Ok r /\
     all_defined ["MR_THREAD_SAFE"; "MR_TABLE_STATISTICS"] r = true) /\
  Resolve (flags ["MR_THREAD_SAFE"; "MR_TABLE_STATISTICS"]) ∅
    = Err "MR_THREAD_SAFE and MR_TABLE_STATISTICS are not supported together" /\
  diagnose "MR_THREAD_SAFE and MR_TABLE_STATISTICS are not supported together"
    = Some (IncompatibleCombination ["THREAD_SAFE"; "TABLE_STATISTICS"]).
Proof.
  split; [apply holds_ok; vm_compute; reflexivity|].
  split; vm_compute; reflexivity.
Qed.

(** ** Position-independent code (lines 556-579) *)

Lemma pic_reg_post s :
  post (seq Conf.pic Conf.pic_reg s) (fun s' =>
    defined "MR_PIC_REG" s'
    = negb (defined "__CYGWIN__" s || defined "_WIN32" s)
      && (defined "MR_PIC" s || defined "__pic__" s || defined "__PIC__" s
          || defined "MR_PIC_REG" s)).
Proof. exec; finish. Qed.

Lemma before_pic m :
  In m ["MR_PIC"; "__pic__"; "__PIC__"; "MR_PIC_REG"; "__CYGWIN__"; "_WIN32"] ->
  preserves m (run (take 9 rules)).
Proof.
  intros H. repeat (destruct H as [<-|H]; [frames|]). destruct H.
Qed.

Lemma after_pic_reg : preserves "MR_PIC_REG" (run (drop 11 rules)).
Proof. frames. Qed.

Lemma resolved_pic_reg s r :
  run rules s = Ok r ->
  defined "MR_PIC_REG" r
  = negb (defined "__CYGWIN__" s || defined "_WIN32" s)
    && (defined "MR_PIC" s || defined "__pic__" s || defined "__PIC__" s
        || defined "MR_PIC_REG" s).
Proof.
  intros H. apply (run_rules_split 9) in H as (s1 & H1 & H2).
  change (drop 9 rules) with (Conf.pic :: Conf.pic_reg :: drop 11 rules) in H2.
  apply run_cons_ok in H2 as (s2 & H2 & H3).
  apply run_cons_ok in H3 as (s3 & H3 & H4).
  rewrite (preserves_defined _ _ _ _ after_pic_reg H4).
  rewrite (post_ok _ _ _ (pic_reg_post s1) (seq_intro _ _ _ _ _ H2 H3)).
  rewrite !(fun m Hm => preserves_defined m _ _ _ (before_pic m Hm) H1)
    by (simpl; tauto).
  reflexivity.
Qed.

(** C4. Whenever resolution succeeds: if a position-independent-code fact
    (MR_PIC, __pic__ or __PIC__) is present and no Windows-family fact
    (__CYGWIN__, _WIN32) is, the resolved configuration has MR_PIC_REG
    defined; if a Windows-family fact is present it has MR_PIC_REG undefined,
    whatever was supplied, MR_PIC_REG included. *)
Theorem C4_pic_reg_retraction (initial platform r : FlagStore) :
  Resolve initial platform = Ok r ->
  ((supplied "MR_PIC" initial platform \/ supplied "__pic__" initial platform
    \/ supplied "__PIC__" initial platform) ->
   ~ supplied "__CYGWIN__" initial platform ->
   ~ supplied "_WIN32" initial platform ->
   defined "MR_PIC_REG" r = true) /\
  (supplied "__CYGWIN__" initial platform \/ supplied "_WIN32" initial platform ->
   defined "MR_PIC_REG" r = false).
Proof.
  unfold Resolve, mercury_conf_param_body, supplied. intros H.
  rewrite (resolved_pic_reg _ _ H). split.
  - intros Hpic Hc Hw.
    apply not_true_is_false in Hc, Hw. rewrite Hc, Hw.
    destruct Hpic as [-> | [-> | ->]]; cbn; rewrite ?orb_true_r; reflexivity.
  - intros [-> | ->]; rewrite ?orb_true_r; reflexivity.
Qed.

Lemma C4_witness :
  (exists r, Resolve ∅ (flags ["__pic__"]) = Ok r /\
             defined "MR_PIC_REG" r = true) /\
  (exists r, Resolve (flags ["MR_PIC_REG"]) (flags ["__pic__"; "_WIN32"]) = Ok r /\
             defined "MR_PIC_REG" r = false).
Proof.
  split.
  - destruct (holds_ok (fun _ => true) (Resolve ∅ (flags ["__pic__"])))
      as (r & E & _); [vm_compute; reflexivity|].
    exists r. split; [exact E|].
    apply (proj1 (C4_pic_reg_retraction _ _ r E)).
    + right; left. vm_compute. reflexivity.
    + vm_compute. discriminate.
    + vm_compute. discriminate.
  - destruct (holds_ok (fun _ => true)
                (Resolve (flags ["MR_PIC_REG"]) (flags ["__pic__"; "_WIN32"])))
      as (r & E & _); [vm_compute; reflexivity|].
    exists r. split; [exact E|].
    apply (proj2 (C4_pic_reg_retraction _ _ r E)).
    right. vm_compute. reflexivity.
Defined.

(** ** The conservative collectors (lines 640-646) *)

Lemma conservative_gc_post s :
  post (Conf.conservative_gc s) (fun s' =>
    defined "MR_CONSERVATIVE_GC" s'
    = defined "MR_CONSERVATIVE_GC" s || defined "MR_BOEHM_GC" s
      || defined "MR_MPS_GC" s /\
    defined "MR_BOEHM_GC" s'
    = defined "MR_BOEHM_GC" s
      || defined "MR_CONSERVATIVE_GC" s && negb (defined "MR_MPS_GC" s) /\
    defined "MR_MPS_GC" s' = defined "MR_MPS_GC" s).
Proof. exec; repeat split; finish. Qed.

Lemma before_conservative_gc m :
  In m ["MR_CONSERVATIVE_GC"; "MR_BOEHM_GC"; "MR_MPS_GC"; "MR_NATIVE_GC";
        "MR_RECLAIM_HP_ON_FAILURE"; "MR_MIGHT_RECLAIM_HP_ON_FAILURE"] ->
  preserves m (run (take 14 rules)).
Proof.
  intros H. repeat (destruct H as [<-|H]; [frames|]). destruct H.
Qed.

Lemma after_conservative_gc m :
  In m ["MR_CONSERVATIVE_GC"; "MR_BOEHM_GC"; "MR_MPS_GC"] ->
  preserves m (run (drop 15 rules)).
Proof.
  intros H. repeat (destruct H as [<-|H]; [frames|]). destruct H.
Qed.

Lemma resolved_gc s r :
  run rules s = Ok r ->
  defined "MR_CONSERVATIVE_GC" r
  = defined "MR_CONSERVATIVE_GC" s || defined "MR_BOEHM_GC" s
    || defined "MR_MPS_GC" s /\
  defined "MR_BOEHM_GC" r
  = defined "MR_BOEHM_GC" s
    || defined "MR_CONSERVATIVE_GC" s && negb (defined "MR_MPS_GC" s) /\
  defined "MR_MPS_GC" r = defined "MR_MPS_GC" s.
Proof.
  intros H. apply (run_rules_split 14) in H as (s1 & H1 & H2).
  change (drop 14 rules) with (Conf.conservative_gc :: drop 15 rules) in H2.
  apply run_cons_ok in H2 as (s2 & H2 & H3).
  rewrite !(fun m Hm => preserves_defined m _ _ _ (after_conservative_gc m Hm) H3)
    by (simpl; tauto).
  rewrite <- !(fun m Hm => preserves_defined m _ _ _ (before_conservative_gc m Hm) H1)
    by (simpl; tauto).
  exact (post_ok _ _ _ (conservative_gc_post s1) H2).
Qed.

(** C7. Whenever resolution succeeds, MR_BOEHM_GC and MR_MPS_GC each make
    MR_CONSERVATIVE_GC defined, and MR_CONSERVATIVE_GC with neither collector
    named makes MR_BOEHM_GC defined.  Each of the three requested alone
    resolves, and so do the two collectors requested together, with
    MR_CONSERVATIVE_GC defined: naming both is no conflict. *)
Theorem C7_gc_normalization :
  (forall initial platform r,
     Resolve initial platform = Ok r ->
     (supplied "MR_BOEHM_GC" initial platform ->
      defined "MR_CONSERVATIVE_GC" r = true) /\
     (supplied "MR_MPS_GC" initial platform ->
      defined "MR_CONSERVATIVE_GC" r = true) /\
     (supplied "MR_CONSERVATIVE_GC" initial platform ->
      ~ supplied "MR_BOEHM_GC" initial platform ->
      ~ supplied "MR_MPS_GC" initial platform ->
      defined "MR_BOEHM_GC" r = true)) /\
  (exists r, Resolve (flags ["MR_BOEHM_GC"]) ∅ = Ok r /\
     defined "MR_CONSERVATIVE_GC" r = true) /\
  (exists r, Resolve (flags ["MR_MPS_GC"]) ∅ = Ok r /\
     defined "MR_CONSERVATIVE_GC" r = true) /\
  (exists r, Resolve (flags ["MR_CONSERVATIVE_GC"]) ∅ = Ok r /\
     defined "MR_BOEHM_GC" r = true) /\
  (exists r, Resolve (flags ["MR_BOEHM_GC"; "MR_MPS_GC"]) ∅ = Ok r /\
     all_defined ["MR_BOEHM_GC"; "MR_MPS_GC"; "MR_CONSERVATIVE_GC"] r = true).
Proof.
  split.
  - unfold Resolve, mercury_conf_param_body, supplied. intros initial platform r H.
    destruct (resolved_gc _ _ H) as (Hc & Hb & _). rewrite Hc, Hb.
    repeat split.
    + intros ->. rewrite orb_true_r. reflexivity.
    + intros ->. apply orb_true_r.
    + intros -> _ Hm. apply not_true_is_false in Hm. rewrite Hm.
      apply orb_true_r.
  - repeat split; apply holds_ok; vm_compute; reflexivity.
Qed.

Lemma C7_witness :
  exists r, Resolve (flags ["MR_CONSERVATIVE_GC"]) (flags ["__pic__"]) = Ok r /\
    defined "MR_BOEHM_GC" r = true.
Proof.
  destruct (holds_ok (fun _ => true)
              (Resolve (flags ["MR_CONSERVATIVE_GC"]) (flags ["__pic__"])))
    as (r & E & _); [vm_compute; reflexivity|].
  exists r. split; [exact E|].
  apply (proj1 C7_gc_normalization _ _ r E).
  - vm_compute. reflexivity.
  - vm_compute. discriminate.
  - vm_compute. discriminate.
Defined.

(** ** Minimal model tabling (lines 514-520) *)

Lemma before_minimal_model_preserves m :
  In m ["MR_USE_MINIMAL_MODEL_STACK_COPY"; "MR_USE_MINIMAL_MODEL_OWN_STACKS";
        "MR_CONSERVATIVE_GC"] ->
  preserves m (run before_minimal_model).
Proof.
  unfold before_minimal_model.
  intros H. repeat (destruct H as [<-|H]; [frames|]). destruct H.
Qed.

Lemma minimal_model_err s :
  defined "MR_USE_MINIMAL_MODEL_STACK_COPY" s
  || defined "MR_USE_MINIMAL_MODEL_OWN_STACKS" s = true ->
  defined "MR_CONSERVATIVE_GC" s = false ->
  Conf.minimal_model s
  = Err "MR_USE_MINIMAL_MODEL_OWN_STACKS requires MR_CONSERVATIVE_GC".
Proof.
  intros H Hc. unfold_directives. rewrite Hc.
  destruct (defined "MR_USE_MINIMAL_MODEL_STACK_COPY" s);
    cbn [andb orb negb] in *; [reflexivity|].
  rewrite H, Hc. reflexivity.
Qed.

(** Tabling without MR_CONSERVATIVE_GC in the input: the header raises an
    error, the one of lines 514-520 unless an earlier directive raises
    its own. *)
Lemma minimal_model_unmet s :
  defined "MR_USE_MINIMAL_MODEL_STACK_COPY" s
  || defined "MR_USE_MINIMAL_MODEL_OWN_STACKS" s = true ->
  defined "MR_CONSERVATIVE_GC" s = false ->
  (exists msg, run rules s = Err msg) /\
  (forall s1, run before_minimal_model s = Ok s1 ->
     run rules s
     = Err "MR_USE_MINIMAL_MODEL_OWN_STACKS requires MR_CONSERVATIVE_GC").
Proof.
  intros H Hc.
  change rules
    with (before_minimal_model ++ Conf.minimal_model :: drop 6 rules)%list.
  assert (Hgo : forall s1, run before_minimal_model s = Ok s1 ->
    run (before_minimal_model ++ Conf.minimal_model :: drop 6 rules)%list s
    = Err "MR_USE_MINIMAL_MODEL_OWN_STACKS requires MR_CONSERVATIVE_GC").
  { intros s1 H1. rewrite (run_app_ok _ _ _ _ H1). cbn [run].
    assert (Hp : forall m,
      In m ["MR_USE_MINIMAL_MODEL_STACK_COPY";
            "MR_USE_MINIMAL_MODEL_OWN_STACKS"; "MR_CONSERVATIVE_GC"] ->
      defined m s1 = defined m s).
    { intros m Hm.
      exact (preserves_defined m _ _ _ (before_minimal_model_preserves m Hm) H1). }
    apply seq_err_l, minimal_model_err.
    - rewrite 2 Hp by (simpl; tauto). exact H.
    - rewrite Hp by (simpl; tauto). exact Hc. }
  split; [|exact Hgo].
  destruct (run before_minimal_model s) as [s1|msg] eqn:E.
  - eexists. apply (Hgo s1 eq_refl).
  - exists msg. apply run_app_err, E.
Qed.

(** C2. The header at a collector named with minimal model tabling and
    MR_CONSERVATIVE_GC left to be derived: the prerequisite is tested at
    lines 514-520, before MR_CONSERVATIVE_GC is derived at lines 640-643, and
    the run stops with the error. *)
Theorem C2_minimal_model_tested_before_gc_derived :
  Resolve (flags ["MR_BOEHM_GC"; "MR_USE_MINIMAL_MODEL_STACK_COPY"]) ∅
  = Err "MR_USE_MINIMAL_MODEL_OWN_STACKS requires MR_CONSERVATIVE_GC" /\
  Resolve (flags ["MR_BOEHM_GC"; "MR_USE_MINIMAL_MODEL_OWN_STACKS"]) ∅
  = Err "MR_USE_MINIMAL_MODEL_OWN_STACKS requires MR_CONSERVATIVE_GC" /\
  Resolve (flags ["MR_MPS_GC"; "MR_USE_MINIMAL_MODEL_STACK_COPY"]) ∅
  = Err "MR_USE_MINIMAL_MODEL_OWN_STACKS requires MR_CONSERVATIVE_GC" /\
  Resolve (flags ["MR_MPS_GC"; "MR_USE_MINIMAL_MODEL_OWN_STACKS"]) ∅
  = Err "MR_USE_MINIMAL_MODEL_OWN_STACKS requires MR_CONSERVATIVE_GC" /\
  (exists r,
     Resolve (flags ["MR_CONSERVATIVE_GC"; "MR_BOEHM_GC";
                     "MR_USE_MINIMAL_MODEL_STACK_COPY"]) ∅ = Ok r /\
     defined "MR_CONSERVATIVE_GC" r = true).
Proof.
  repeat split; try (vm_compute; reflexivity).
  apply holds_ok. vm_compute. reflexivity.
Qed.

(** C8 as stated fails: with MR_STACK_TRACE set as well, the run stops at the
    first directive of the header, and the error is the reserved flag, not
    the missing prerequisite. *)
Lemma C8_counterexample :
  supplied "MR_USE_MINIMAL_MODEL_OWN_STACKS"
    (flags ["MR_STACK_TRACE"; "MR_USE_MINIMAL_MODEL_OWN_STACKS"]) ∅ /\
  none_defined ["MR_CONSERVATIVE_GC"; "MR_BOEHM_GC"; "MR_MPS_GC"]
    (flags ["MR_STACK_TRACE"; "MR_USE_MINIMAL_MODEL_OWN_STACKS"] ∪ ∅) = true /\
  error_of (Resolve (flags ["MR_STACK_TRACE"; "MR_USE_MINIMAL_MODEL_OWN_STACKS"]) ∅)
  = Some (ReservedFlagSetExternally "STACK_TRACE") /\
  (forall name requires,
     error_of
       (Resolve (flags ["MR_STACK_TRACE"; "MR_USE_MINIMAL_MODEL_OWN_STACKS"]) ∅)
     <> Some (MissingPrerequisite name requires)).
Proof.
  repeat split; try (vm_compute; reflexivity).
  intros name requires. vm_compute. discriminate.
Qed.

(** C8, amended. Minimal model tabling (either variant) requested while
    the conservative-GC category is not resolved true (none of
    MR_CONSERVATIVE_GC, MR_BOEHM_GC, MR_MPS_GC supplied) is never repaired:
    resolution fails.  When no directive before lines 514-520 raises an
    error, the error is MissingPrerequisite requiring CONSERVATIVE_GC, and it
    names USE_MINIMAL_MODEL_OWN_STACKS when that variant alone was
    requested. *)
Theorem C8_minimal_model_requires_conservative_gc
    (initial platform : FlagStore) :
  supplied "MR_USE_MINIMAL_MODEL_STACK_COPY" initial platform \/
  supplied "MR_USE_MINIMAL_MODEL_OWN_STACKS" initial platform ->
  ~ supplied "MR_CONSERVATIVE_GC" initial platform ->
  ~ supplied "MR_BOEHM_GC" initial platform ->
  ~ supplied "MR_MPS_GC" initial platform ->
  (exists msg, Resolve initial platform = Err msg) /\
  (forall s1, run before_minimal_model (initial ∪ platform) = Ok s1 ->
     exists name,
       error_of (Resolve initial platform)
       = Some (MissingPrerequisite name "CONSERVATIVE_GC") /\
       (~ supplied "MR_USE_MINIMAL_MODEL_STACK_COPY" initial platform ->
        name = "USE_MINIMAL_MODEL_OWN_STACKS")).
Proof.
  unfold Resolve, mercury_conf_param_body, supplied. intros H Hc _ _.
  apply not_true_is_false in Hc.
  destruct (minimal_model_unmet (initial ∪ platform)) as [Hfail Hmsg];
    [|exact Hc|].
  - apply orb_true_iff. exact H.
  - split; [exact Hfail|].
    intros s1 H1. rewrite (Hmsg s1 H1).
    exists "USE_MINIMAL_MODEL_OWN_STACKS". split; reflexivity.
Qed.

Lemma C8_witness :
  (exists msg, Resolve (flags ["MR_USE_MINIMAL_MODEL_OWN_STACKS"]) ∅ = Err msg) /\
  exists name,
    error_of (Resolve (flags ["MR_USE_MINIMAL_MODEL_OWN_STACKS"]) ∅)
    = Some (MissingPrerequisite name "CONSERVATIVE_GC") /\
    (~ supplied "MR_USE_MINIMAL_MODEL_STACK_COPY"
         (flags ["MR_USE_MINIMAL_MODEL_OWN_STACKS"]) ∅ ->
     name = "USE_MINIMAL_MODEL_OWN_STACKS").
Proof.
  destruct (C8_minimal_model_requires_conservative_gc
              (flags ["MR_USE_MINIMAL_MODEL_OWN_STACKS"]) ∅) as [Hf Hm].
  - right. vm_compute. reflexivity.
  - vm_compute. discriminate.
  - vm_compute. discriminate.
  - vm_compute. discriminate.
  - split; [exact Hf|].
    destruct (holds_ok (fun _ => true)
                (run before_minimal_model
                   (flags ["MR_USE_MINIMAL_MODEL_OWN_STACKS"] ∪ ∅)))
      as (s1 & E & _); [vm_compute; reflexivity|].
    exact (Hm s1 E).
Defined.

(** ** Heap reclamation on failure (lines 657-699) *)

(** From the collector section on, a table with reclamation and a
    conservative collector runs into the sanity checks. *)
Lemma reclaim_hp_sanity_err s :
  defined "MR_RECLAIM_HP_ON_FAILURE" s = true ->
  defined "MR_CONSERVATIVE_GC" s || defined "MR_BOEHM_GC" s
  || defined "MR_MPS_GC" s = true ->
  run [Conf.conservative_gc; Conf.might_reclaim_hp; Conf.reclaim_hp;
       Conf.reclaim_hp_sanity] s
  = Err (reclaim_hp_error (defined "MR_MIGHT_RECLAIM_HP_ON_FAILURE" s)).
Proof.
  intros Hr Hc. cbn [run]. unfold reclaim_hp_error. exec;
    try discriminate; reflexivity.
Qed.

Lemma reclaim_hp_conservative s :
  defined "MR_RECLAIM_HP_ON_FAILURE" s = true ->
  defined "MR_CONSERVATIVE_GC" s || defined "MR_BOEHM_GC" s
  || defined "MR_MPS_GC" s = true ->
  (exists msg, run rules s = Err msg) /\
  (forall s', run before_reclaim_hp_sanity s = Ok s' ->
     run rules s
     = Err (reclaim_hp_error (defined "MR_MIGHT_RECLAIM_HP_ON_FAILURE" s))).
Proof.
  intros Hr Hc.
  change rules
    with (take 14 rules
          ++ ([Conf.conservative_gc; Conf.might_reclaim_hp; Conf.reclaim_hp;
               Conf.reclaim_hp_sanity] ++ drop 18 rules))%list.
  assert (Hgo : forall s1, run (take 14 rules) s = Ok s1 ->
    run (take 14 rules
         ++ ([Conf.conservative_gc; Conf.might_reclaim_hp; Conf.reclaim_hp;
              Conf.reclaim_hp_sanity] ++ drop 18 rules))%list s
    = Err (reclaim_hp_error (defined "MR_MIGHT_RECLAIM_HP_ON_FAILURE" s))).
  { intros s1 H1. rewrite (run_app_ok _ _ _ _ H1).
    assert (Hp : forall m,
      In m ["MR_CONSERVATIVE_GC"; "MR_BOEHM_GC"; "MR_MPS_GC"; "MR_NATIVE_GC";
            "MR_RECLAIM_HP_ON_FAILURE"; "MR_MIGHT_RECLAIM_HP_ON_FAILURE"] ->
      defined m s1 = defined m s).
    { intros m Hm.
      exact (preserves_defined m _ _ _ (before_conservative_gc m Hm) H1). }
    apply run_app_err.
    rewrite <- (Hp "MR_MIGHT_RECLAIM_HP_ON_FAILURE") by (simpl; tauto).
    apply reclaim_hp_sanity_err.
    - rewrite Hp by (simpl; tauto). exact Hr.
    - rewrite 3 Hp by (simpl; tauto). exact Hc. }
  split.
  - destruct (run (take 14 rules) s) as [s1|msg] eqn:E.
    + eexists. apply (Hgo s1 eq_refl).
    + exists msg. apply run_app_err, E.
  - intros s' H. unfold before_reclaim_hp_sanity in H.
    rewrite run_app in H. apply seq_ok in H as (s1 & H1 & _).
    apply (Hgo s1 H1).
Qed.

(** C3 as stated fails: with MR_STACK_TRACE set as well, the first directive
    of the header stops the run, and the single error is the reserved flag,
    not an incompatible combination. *)
Lemma C3_counterexample :
  supplied "MR_RECLAIM_HP_ON_FAILURE"
    (flags ["MR_STACK_TRACE"; "MR_CONSERVATIVE_GC"; "MR_RECLAIM_HP_ON_FAILURE"]) ∅ /\
  supplied "MR_CONSERVATIVE_GC"
    (flags ["MR_STACK_TRACE"; "MR_CONSERVATIVE_GC"; "MR_RECLAIM_HP_ON_FAILURE"]) ∅ /\
  Resolve
    (flags ["MR_STACK_TRACE"; "MR_CONSERVATIVE_GC"; "MR_RECLAIM_HP_ON_FAILURE"]) ∅
  = Err "MR_STACK_TRACE set independently" /\
  error_of
    (Resolve
       (flags ["MR_STACK_TRACE"; "MR_CONSERVATIVE_GC"; "MR_RECLAIM_HP_ON_FAILURE"]) ∅)
  = Some (ReservedFlagSetExternally "STACK_TRACE") /\
  (forall names,
     error_of
       (Resolve
          (flags ["MR_STACK_TRACE"; "MR_CONSERVATIVE_GC";
                  "MR_RECLAIM_HP_ON_FAILURE"]) ∅)
     <> Some (IncompatibleCombination names)).
Proof.
  repeat split; try (vm_compute; reflexivity).
  intros names. vm_compute. discriminate.
Qed.

(** C3, amended. When heap reclamation on failure is requested and the
    conservative-GC category resolves true (MR_CONSERVATIVE_GC, MR_BOEHM_GC or
    MR_MPS_GC supplied), resolution fails, with one error.  When no directive
    before the sanity checks of lines 680-699 raises an error, that error is
    IncompatibleCombination: of RECLAIM_HP_ON_FAILURE with
    MIGHT_RECLAIM_HP_ON_FAILURE, or with CONSERVATIVE_GC when
    MR_MIGHT_RECLAIM_HP_ON_FAILURE was supplied too. *)
Theorem C3_reclaim_hp_with_conservative_gc (initial platform : FlagStore) :
  supplied "MR_RECLAIM_HP_ON_FAILURE" initial platform ->
  (supplied "MR_CONSERVATIVE_GC" initial platform \/
   supplied "MR_BOEHM_GC" initial platform \/
   supplied "MR_MPS_GC" initial platform) ->
  (exists msg, Resolve initial platform = Err msg) /\
  (forall s', run before_reclaim_hp_sanity (initial ∪ platform) = Ok s' ->
     Resolve initial platform
     = Err (reclaim_hp_error
              (defined "MR_MIGHT_RECLAIM_HP_ON_FAILURE" (initial ∪ platform))) /\
     error_of (Resolve initial platform)
     = Some (IncompatibleCombination
               ["RECLAIM_HP_ON_FAILURE";
                if defined "MR_MIGHT_RECLAIM_HP_ON_FAILURE" (initial ∪ platform)
                then "CONSERVATIVE_GC" else "MIGHT_RECLAIM_HP_ON_FAILURE"])).
Proof.
  unfold Resolve, mercury_conf_param_body, supplied. intros Hr Hc.
  destruct (reclaim_hp_conservative (initial ∪ platform) Hr) as [Hfail Hmsg].
  - rewrite !orb_true_iff. tauto.
  - split; [exact Hfail|].
    intros s' H. rewrite (Hmsg s' H). split; [reflexivity|].
    destruct (defined "MR_MIGHT_RECLAIM_HP_ON_FAILURE" (initial ∪ platform));
      reflexivity.
Qed.

Lemma C3_witness :
  (exists msg,
     Resolve (flags ["MR_BOEHM_GC"; "MR_RECLAIM_HP_ON_FAILURE"]) ∅ = Err msg) /\
  error_of (Resolve (flags ["MR_BOEHM_GC"; "MR_RECLAIM_HP_ON_FAILURE"]) ∅)
  = Some (IncompatibleCombination
            ["RECLAIM_HP_ON_FAILURE"; "MIGHT_RECLAIM_HP_ON_FAILURE"]).
Proof.
  destruct (C3_reclaim_hp_with_conservative_gc
              (flags ["MR_BOEHM_GC"; "MR_RECLAIM_HP_ON_FAILURE"]) ∅)
    as [Hf Hm].
  - vm_compute. reflexivity.
  - right; left. vm_compute. reflexivity.
  - split; [exact Hf|].
    destruct (holds_ok (fun _ => true)
                (run before_reclaim_hp_sanity
                   (flags ["MR_BOEHM_GC"; "MR_RECLAIM_HP_ON_FAILURE"] ∪ ∅)))
      as (s1 & E & _); [vm_compute; reflexivity|].
    exact (proj2 (Hm s1 E)).
Defined.

(** ** High-level code and low-level debugging (lines 349-368) *)

Lemma highlevel_debug_first s :
  defined "MR_HIGHLEVEL_CODE" s = true ->
  Conf.highlevel_debug s
  = match find (fun m => defined m s) lowlevel_debug_modes with
    | Some m => Err (not_supported_together "MR_HIGHLEVEL_CODE" m)
    | None => Ok s
    end.
Proof.
  intros H. cbn [find lowlevel_debug_modes]. exec; reflexivity.
Qed.

Lemma stack_trace_passes s :
  defined "MR_STACK_TRACE" s = false ->
  exists s1, Conf.stack_trace s = Ok s1 /\
    forall m, m <> "MR_STACK_TRACE" -> defined m s1 = defined m s.
Proof.
  intros H. unfold_directives. rewrite H.
  destruct (defined "MR_EXEC_TRACE" s || defined "MR_DEEP_PROFILING" s);
    eexists; (split; [reflexivity|]); intros m Hm; [|reflexivity].
  apply defined_insert_ne. congruence.
Qed.

Lemma highlevel_debug_conflict s mode :
  defined "MR_HIGHLEVEL_CODE" s = true ->
  In mode lowlevel_debug_modes -> defined mode s = true ->
  defined "MR_STACK_TRACE" s = false ->
  exists first,
    find (fun m => defined m s) lowlevel_debug_modes = Some first /\
    run rules s = Err (not_supported_together "MR_HIGHLEVEL_CODE" first).
Proof.
  intros Hh Hin Hm Hst.
  destruct (stack_trace_passes s Hst) as (s1 & H1 & Hp).
  change rules
    with (Conf.stack_trace :: Conf.highlevel_debug :: drop 2 rules).
  cbn [run]. rewrite (seq_ok_l _ _ _ _ H1).
  destruct (find (fun m => defined m s) lowlevel_debug_modes) as [first|] eqn:E.
  - exists first. split; [reflexivity|]. apply seq_err_l.
    rewrite highlevel_debug_first by (rewrite Hp by discriminate; exact Hh).
    cbn [find lowlevel_debug_modes] in *.
    rewrite !Hp by discriminate. rewrite E. reflexivity.
  - apply find_none with (x := mode) in E; [|exact Hin]. congruence.
Qed.

(** C6 as stated fails: with MR_STACK_TRACE set as well, the reserved flag is
    reported, and neither MR_HIGHLEVEL_CODE nor MR_DEBUG_GOTOS is named. *)
Lemma C6_counterexample :
  all_defined ["MR_HIGHLEVEL_CODE"; "MR_DEBUG_GOTOS"]
    (flags ["MR_STACK_TRACE"; "MR_HIGHLEVEL_CODE"; "MR_DEBUG_GOTOS"] ∪ ∅) = true /\
  Resolve (flags ["MR_STACK_TRACE"; "MR_HIGHLEVEL_CODE"; "MR_DEBUG_GOTOS"]) ∅
  = Err "MR_STACK_TRACE set independently" /\
  error_of
    (Resolve (flags ["MR_STACK_TRACE"; "MR_HIGHLEVEL_CODE"; "MR_DEBUG_GOTOS"]) ∅)
  = Some (ReservedFlagSetExternally "STACK_TRACE") /\
  (forall names,
     error_of
       (Resolve (flags ["MR_STACK_TRACE"; "MR_HIGHLEVEL_CODE"; "MR_DEBUG_GOTOS"]) ∅)
     <> Some (IncompatibleCombination names)).
Proof.
  repeat split; try (vm_compute; reflexivity).
  intros names. vm_compute. discriminate.
Qed.

(** C6, amended. High-level code with any of the named low-level debugging
    modes never resolves.  Unless MR_STACK_TRACE is set too (its check comes
    first), the error is IncompatibleCombination naming exactly two flags,
    HIGHLEVEL_CODE and the first supplied mode in the order of the header, so
    the mode itself when it is the only one supplied; in particular
    {HIGHLEVEL_CODE, DEBUG_GOTOS} fails with
    IncompatibleCombination [HIGHLEVEL_CODE; DEBUG_GOTOS]. *)
Theorem C6_highlevel_code_excludes_lowlevel_debug :
  (forall (initial platform : FlagStore) (mode : string),
     In mode lowlevel_debug_modes ->
     supplied "MR_HIGHLEVEL_CODE" initial platform ->
     supplied mode initial platform ->
     (exists msg, Resolve initial platform = Err msg) /\
     (~ supplied "MR_STACK_TRACE" initial platform ->
      exists first,
        find (fun m => defined m (initial ∪ platform)) lowlevel_debug_modes
        = Some first /\
        Resolve initial platform
        = Err (not_supported_together "MR_HIGHLEVEL_CODE" first) /\
        error_of (Resolve initial platform)
        = Some (IncompatibleCombination ["HIGHLEVEL_CODE"; flag_name first]) /\
        ((forall m, In m lowlevel_debug_modes ->
            supplied m initial platform -> m = mode) ->
         first = mode))) /\
  error_of (Resolve (flags ["MR_HIGHLEVEL_CODE"; "MR_DEBUG_GOTOS"]) ∅)
  = Some (IncompatibleCombination ["HIGHLEVEL_CODE"; "DEBUG_GOTOS"]).
Proof.
  split; [|vm_compute; reflexivity].
  unfold Resolve, mercury_conf_param_body, supplied.
  intros initial platform mode Hin Hh Hm.
  assert (Hgo : defined "MR_STACK_TRACE" (initial ∪ platform) = false ->
    exists first,
      find (fun m => defined m (initial ∪ platform)) lowlevel_debug_modes
      = Some first /\
      run rules (initial ∪ platform)
      = Err (not_supported_together "MR_HIGHLEVEL_CODE" first)).
  { intros Hst. exact (highlevel_debug_conflict _ mode Hh Hin Hm Hst). }
  split.
  - destruct (defined "MR_STACK_TRACE" (initial ∪ platform)) eqn:Hst.
    + eexists. apply stack_trace_reserved, Hst.
    + destruct (Hgo eq_refl) as (first & _ & E). eexists. exact E.
  - intros Hst. apply not_true_is_false in Hst.
    destruct (Hgo Hst) as (first & Hf & E).
    exists first. split; [exact Hf|]. rewrite E. split; [reflexivity|].
    destruct (find_some _ _ Hf) as [Hfin Hfs]. split.
    + cbn [In lowlevel_debug_modes] in Hfin.
      repeat (destruct Hfin as [<-|Hfin]; [reflexivity|]). destruct Hfin.
    + intros Honly. apply Honly; assumption.
Qed.

Lemma C6_witness :
  exists first,
    find (fun m => defined m
                     (flags ["MR_HIGHLEVEL_CODE"; "MR_DEBUG_LVAL_REP"] ∪ ∅))
      lowlevel_debug_modes = Some first /\
    error_of (Resolve (flags ["MR_HIGHLEVEL_CODE"; "MR_DEBUG_LVAL_REP"]) ∅)
    = Some (IncompatibleCombination ["HIGHLEVEL_CODE"; flag_name first]).
Proof.
  destruct (proj1 C6_highlevel_code_excludes_lowlevel_debug
              (flags ["MR_HIGHLEVEL_CODE"; "MR_DEBUG_LVAL_REP"]) ∅
              "MR_DEBUG_LVAL_REP") as [_ H].
  - simpl. tauto.
  - vm_compute. reflexivity.
  - vm_compute. reflexivity.
  - destruct H as (first & Hf & _ & He & _).
    + vm_compute. discriminate.
    + exists first. split; assumption.
Defined.

(** ** Feeding a resolved configuration back in *)

Lemma need_initialization_post s :
  post (Conf.need_initialization_at_start s) (fun s' =>
    defined "MR_STATIC_CODE_ADDRESSES" s' = defined "MR_STATIC_CODE_ADDRESSES" s /\
    (defined "MR_STATIC_CODE_ADDRESSES" s = false ->
     defined "MR_NEED_INITIALIZATION_AT_START" s' = true)).
Proof. exec; split; intros; congruence. Qed.

Lemma after_need_initialization m :
  In m ["MR_STATIC_CODE_ADDRESSES"; "MR_NEED_INITIALIZATION_AT_START"] ->
  preserves m (run (drop 26 rules)).
Proof.
  intros H. repeat (destruct H as [<-|H]; [frames|]). destruct H.
Qed.

(** Every resolved configuration has one of two macros that must not be
    given on the command line. *)
Lemma resolved_has_reserved s r :
  run rules s = Ok r ->
  defined "MR_STATIC_CODE_ADDRESSES" r = true \/
  defined "MR_NEED_INITIALIZATION_AT_START" r = true.
Proof.
  intros H. apply (run_rules_split 19) in H as (s1 & _ & H).
  change (drop 19 rules)
    with (take 6 (drop 19 rules)
          ++ Conf.need_initialization_at_start :: drop 26 rules)%list in H.
  rewrite run_app in H. apply seq_ok in H as (s2 & H2 & H).
  apply run_cons_ok in H as (s3 & H3 & H4).
  destruct (post_ok _ _ _ (need_initialization_post s2) H3) as [Hs Hn].
  rewrite !(fun m Hm => preserves_defined m _ _ _ (after_need_initialization m Hm) H4)
    by (simpl; tauto).
  destruct (defined "MR_STATIC_CODE_ADDRESSES" s2) eqn:E.
  - left. exact Hs.
  - right. apply Hn. reflexivity.
Qed.

Lemma before_static_code_addresses :
  preserves "MR_STATIC_CODE_ADDRESSES" (run (take 18 rules)).
Proof. frames. Qed.

Lemma before_need_initialization :
  preserves "MR_NEED_INITIALIZATION_AT_START" (run (take 25 rules)).
Proof. frames. Qed.

(** A table with one of them is refused. *)
Lemma reserved_refused s :
  defined "MR_STATIC_CODE_ADDRESSES" s = true \/
  defined "MR_NEED_INITIALIZATION_AT_START" s = true ->
  exists msg, run rules s = Err msg.
Proof.
  intros [H|H].
  - rewrite <- (take_drop 18 rules).
    destruct (run (take 18 rules) s) as [s1|msg] eqn:E.
    + rewrite (run_app_ok _ _ _ _ E).
      rewrite <- (preserves_defined _ _ _ _ before_static_code_addresses E) in H.
      change (drop 18 rules) with (Conf.static_code_addresses :: drop 19 rules).
      cbn [run]. eexists. apply seq_err_l. unfold_directives. rewrite H.
      reflexivity.
    + exists msg. apply run_app_err, E.
  - rewrite <- (take_drop 25 rules).
    destruct (run (take 25 rules) s) as [s1|msg] eqn:E.
    + rewrite (run_app_ok _ _ _ _ E).
      rewrite <- (preserves_defined _ _ _ _ before_need_initialization E) in H.
      change (drop 25 rules)
        with (Conf.need_initialization_at_start :: drop 26 rules).
      cbn [run]. eexists. apply seq_err_l. unfold_directives. rewrite H.
      reflexivity.
    + exists msg. apply run_app_err, E.
Qed.


(** * More of the header *)

(** ** What the header leaves alone *)

Section Unwritten.
Variable m : string.
Hypothesis unwritten : ~ In m written_macros.

Lemma unwritten_ne m' : In m' written_macros -> m' <> m.
Proof. intros H <-. exact (unwritten H). Qed.

Lemma preserves_unwritten : preserves m (run rules).
Proof.
  apply preserves_run.
  cbv [rules Conf.checks_and_implied Conf.determined Conf.platform_specific app].
  repeat (constructor;
    [ autounfold with conf;
      repeat first
        [ apply preserves_seq
        | apply preserves_when
        | apply preserves_if_else
        | apply preserves_when_value
        | apply preserves_error
        | apply preserves_skip
        | apply preserves_define; apply unwritten_ne;
          cbv [written_macros In];
          repeat first [ left; reflexivity | right ]
        | apply preserves_undef; apply unwritten_ne;
          cbv [written_macros In];
          repeat first [ left; reflexivity | right ] ] | ]).
  constructor.
Qed.
End Unwritten.


(** ** What the header never takes away *)

Section Keeps.
Variable m : string.

Lemma keeps_skip : keeps m skip.
Proof. intros s s' [= <-] H. exact H. Qed.

Lemma keeps_error msg : keeps m (error msg).
Proof. intros s s' [=]. Qed.

Lemma keeps_define m' b : keeps m (define m' b).
Proof.
  intros s s' [= <-] H. destruct (String.eqb_spec m' m) as [->|Hne].
  - apply defined_insert_eq.
  - rewrite defined_insert_ne by exact Hne. exact H.
Qed.

Lemma keeps_undef m' : m' <> m -> keeps m (undef m').
Proof. intros Hne s s' [= <-] H. rewrite defined_delete_ne by exact Hne. exact H. Qed.

Lemma keeps_seq d1 d2 : keeps m d1 -> keeps m d2 -> keeps m (seq d1 d2).
Proof.
  intros H1 H2 s s' H Hm. apply seq_ok in H as (s1 & E1 & E2).
  exact (H2 _ _ E2 (H1 _ _ E1 Hm)).
Qed.

Lemma keeps_if_else c d1 d2 : keeps m d1 -> keeps m d2 -> keeps m (if_else c d1 d2).
Proof.
  intros H1 H2 s s'. unfold if_else. destruct (c s); [apply H1 | apply H2].
Qed.

Lemma keeps_when c d : keeps m d -> keeps m (when c d).
Proof. intros H. apply keeps_if_else; [exact H | apply keeps_skip]. Qed.

Lemma keeps_when_value m' d : keeps m d -> keeps m (when_value m' d).
Proof.
  intros H s s'. unfold when_value.
  destruct (s !! m') as [[|n]|]; [discriminate | | intros [= <-] Hm; exact Hm].
  destruct (cpp_true n); [apply H | intros [= <-] Hm; exact Hm].
Qed.

Lemma keeps_run ds : Forall (keeps m) ds -> keeps m (run ds).
Proof.
  induction 1 as [|d ds Hd _ IH]; simpl.
  - apply keeps_skip.
  - apply keeps_seq; assumption.
Qed.

Hypothesis never_undefined : ~ In m undefined_macros.

Lemma never_undefined_ne m' : In m' undefined_macros -> m' <> m.
Proof. intros H <-. exact (never_undefined H). Qed.

Lemma keeps_rules : keeps m (run rules).
Proof.
  apply keeps_run.
  cbv [rules Conf.checks_and_implied Conf.determined Conf.platform_specific app].
  repeat (constructor;
    [ autounfold with conf;
      repeat first
        [ apply keeps_seq
        | apply keeps_when
        | apply keeps_if_else
        | apply keeps_when_value
        | apply keeps_error
        | apply keeps_skip
        | apply keeps_define
        | apply keeps_undef; apply never_undefined_ne;
          cbv [undefined_macros In];
          repeat first [ left; reflexivity | right ] ] | ]).
  constructor.
Qed.
End Keeps.

(** X2. The header takes a macro away only by its five [#undef]s: any other
    macro that was supplied is defined in the resolved configuration. *)
Theorem X2_supplied_macros_stay_defined (initial platform r : FlagStore) m :
  ~ In m undefined_macros ->
  supplied m initial platform ->
  Resolve initial platform = Ok r ->
  defined m r = true.
Proof. intros Hm Hs H. exact (keeps_rules m Hm _ _ H Hs). Qed.

Lemma X2_witness :
  exists r,
    Resolve (flags ["MR_DEBUG_GOTOS"; "MR_RECLAIM_HP_ON_FAILURE"]) ∅ = Ok r /\
    defined "MR_RECLAIM_HP_ON_FAILURE" r = true.
Proof.
  destruct (holds_ok (fun _ => true)
              (Resolve (flags ["MR_DEBUG_GOTOS"; "MR_RECLAIM_HP_ON_FAILURE"]) ∅))
    as (r & E & _); [vm_compute; reflexivity|].
  exists r. split; [exact E|].
  apply (X2_supplied_macros_stay_defined
           (flags ["MR_DEBUG_GOTOS"; "MR_RECLAIM_HP_ON_FAILURE"]) ∅ r
           "MR_RECLAIM_HP_ON_FAILURE").
  - cbv [undefined_macros In]. intros H.
    repeat (destruct H as [H|H]; [discriminate H|]). exact H.
  - vm_compute. reflexivity.
  - exact E.
Defined.

(** ** When the header raises no error *)

Lemma checked_succeeds ds :
  checked ds ->
  forall s, succeeds (run (map fst ds) s) = forallb (fun dc => snd dc s) ds.
Proof.
  induction 1 as [|d c ds Hd Hinv _ IH]; intros s; [reflexivity|].
  cbn [map fst run forallb snd]. unfold seq. rewrite <- Hd.
  destruct (d s) as [s'|msg] eqn:E; [|reflexivity].
  cbn [succeeds andb]. rewrite IH.
  clear IH Hd. induction Hinv as [|dc ds Hdc _ IH]; [reflexivity|].
  cbn [forallb]. rewrite (Hdc s s' E), IH. reflexivity.
Qed.

(** Runs of directives may be taken as one directive. *)
Lemma run_block (l1 l2 l3 : list directive) s :
  run (l1 ++ l2 ++ l3) s = run (l1 ++ run l2 :: l3) s.
Proof.
  rewrite !run_app. unfold seq. destruct (run l1 s) as [s1|msg]; [|reflexivity].
  cbn [run]. unfold seq. rewrite run_app. reflexivity.
Qed.

Ltac read_through :=
  repeat match goal with
    | E : ?d ?s = Ok ?s' |- context [defined ?m ?s'] =>
        let H := fresh in
        assert (H : preserves m d) by (cbn [run]; frame);
        rewrite (preserves_defined m d s s' H E); clear H
    | E : ?d ?s = Ok ?s' |- context [?s' !! ?m] =>
        let H := fresh in
        assert (H : preserves m d) by (cbn [run]; frame);
        rewrite (H s s' E); clear H
    end.

Ltac unfold_checks :=
  cbv [snd always highlevel_debug_ok agc_all_ok highlevel_profiling_ok
       thread_safe_ok minimal_model_ok reclaim_hp_ok existsb
       lowlevel_debug_modes].

Lemma header_checked : checked header_checks.
Proof.
  unfold header_checks.
  repeat (apply checked_cons;
    [ intros s; unfold_checks; cbn [run];
      first
        [ unfold Conf.debug_agc_all, when_value;
          destruct (s !! "MR_DEBUG_AGC_ALL") as [[|n]|]; try reflexivity;
          destruct (cpp_true n); reflexivity
        | exec; cbn [succeeds]; first [ reflexivity | finish ] ]
    | repeat (constructor;
        [ intros s s' E; unfold_checks; read_through; reflexivity | ]);
      constructor
    | ]).
  apply checked_nil.
Qed.

Lemma succeeds_resolvable s : succeeds (run rules s) = resolvable s.
Proof.
  change rules
    with (take 14 rules
          ++ [ Conf.conservative_gc; Conf.might_reclaim_hp; Conf.reclaim_hp;
               Conf.reclaim_hp_sanity ] ++ drop 18 rules)%list.
  rewrite run_block.
  change (take 14 rules
          ++ run [ Conf.conservative_gc; Conf.might_reclaim_hp;
                   Conf.reclaim_hp; Conf.reclaim_hp_sanity ]
             :: drop 18 rules)%list
    with (map fst header_checks).
  rewrite (checked_succeeds _ header_checked).
  unfold resolvable. cbn [forallb header_checks snd always andb].
  rewrite andb_true_r, <- !andb_assoc. reflexivity.
Qed.

Lemma reserved_not_resolvable s m :
  In m reserved_macros -> defined m s = true -> resolvable s = false.
Proof.
  intros Hin Hs. unfold resolvable. cbv [reserved_macros In] in Hin.
  repeat (destruct Hin as [<-|Hin];
          [rewrite Hs; cbn [negb]; rewrite ?andb_false_r; reflexivity|]).
  destruct Hin.
Qed.

Lemma resolvable_agrees s s' :
  (forall m, ~ In m platform_facts -> s' !! m = s !! m) ->
  resolvable s' = resolvable s.
Proof.
  intros H. unfold resolvable. unfold_checks. unfold defined.
  rewrite !H; [reflexivity|..];
    cbv [platform_facts In]; intros Hin;
    repeat (destruct Hin as [Hin|Hin]; [discriminate Hin|]); exact Hin.
Qed.

(** X4. Whether the header resolves does not depend on the platform: with
    a platform set that holds only compiler and configuration facts, it
    resolves if and only if it resolves with none. *)
Theorem X4_platform_facts_raise_no_error (initial platform : FlagStore) :
  (forall m, is_Some (platform !! m) -> In m platform_facts) ->
  succeeds (Resolve initial platform) = succeeds (Resolve initial ∅).
Proof.
  intros Hp. unfold Resolve, mercury_conf_param_body.
  rewrite !succeeds_resolvable. apply resolvable_agrees.
  intros m Hm. rewrite (right_id_L ∅ (∪) initial).
  apply lookup_union_l. destruct (platform !! m) as [b|] eqn:E; [|reflexivity].
  destruct Hm. apply Hp. exists b. exact E.
Qed.

Lemma X4_witness :
  succeeds (Resolve (flags ["MR_DEEP_PROFILING"]) {[ "_WIN32" := Num 1 ]})
  = succeeds (Resolve (flags ["MR_DEEP_PROFILING"]) ∅).
Proof.
  apply X4_platform_facts_raise_no_error.
  intros m [b Hb]. apply lookup_singleton_Some in Hb as [<- _].
  cbv [platform_facts In]. tauto.
Defined.


(** X6. MR_HIGHLEVEL_CODE with MR_DEEP_PROFILING or MR_RECORD_TERM_SIZES, and
    MR_THREAD_SAFE with MR_TRACE_HISTOGRAM, MR_TYPE_CTOR_STATS,
    MR_TABLE_STATISTICS or MR_STACK_FRAME_STATS, never resolve. *)
Theorem X6_unsupported_combinations (initial platform : FlagStore) a b :
  In (a, b)
    [ ("MR_HIGHLEVEL_CODE", "MR_DEEP_PROFILING");
      ("MR_HIGHLEVEL_CODE", "MR_RECORD_TERM_SIZES");
      ("MR_THREAD_SAFE", "MR_TRACE_HISTOGRAM");
      ("MR_THREAD_SAFE", "MR_TYPE_CTOR_STATS");
      ("MR_THREAD_SAFE", "MR_TABLE_STATISTICS");
      ("MR_THREAD_SAFE", "MR_STACK_FRAME_STATS") ] ->
  supplied a initial platform ->
  supplied b initial platform ->
  succeeds (Resolve initial platform) = false.
Proof.
  unfold Resolve, mercury_conf_param_body, supplied. intros Hin Ha Hb.
  rewrite succeeds_resolvable. unfold resolvable.
  cbv [In] in Hin.
  repeat (destruct Hin as [[= <- <-]|Hin];
          [unfold highlevel_profiling_ok, thread_safe_ok; cbn [existsb];
           rewrite Ha, Hb; cbn [negb andb orb];
           rewrite ?orb_true_r; cbn [negb andb orb];
           rewrite ?andb_false_r; reflexivity|]).
  destruct Hin.
Qed.

Lemma X6_witness :
  succeeds (Resolve (flags ["MR_THREAD_SAFE"; "MR_STACK_FRAME_STATS"])
                    (flags ["__pic__"])) = false.
Proof.
  apply (X6_unsupported_combinations _ _ "MR_THREAD_SAFE" "MR_STACK_FRAME_STATS").
  - cbv [In]. tauto.
  - vm_compute. reflexivity.
  - vm_compute. reflexivity.
Defined.

(** X7. With a collector named, conservative (MR_CONSERVATIVE_GC,
    MR_BOEHM_GC, MR_MPS_GC) or accurate (MR_NATIVE_GC), the header refuses
    both MR_RECLAIM_HP_ON_FAILURE and MR_MIGHT_RECLAIM_HP_ON_FAILURE from the
    caller. *)
Theorem X7_no_heap_reclamation_with_a_collector
    (initial platform : FlagStore) gc reclaim :
  In gc ["MR_CONSERVATIVE_GC"; "MR_BOEHM_GC"; "MR_MPS_GC"; "MR_NATIVE_GC"] ->
  In reclaim ["MR_RECLAIM_HP_ON_FAILURE"; "MR_MIGHT_RECLAIM_HP_ON_FAILURE"] ->
  supplied gc initial platform ->
  supplied reclaim initial platform ->
  succeeds (Resolve initial platform) = false.
Proof.
  unfold Resolve, mercury_conf_param_body, supplied. intros Hg Hr Hgs Hrs.
  rewrite succeeds_resolvable. unfold resolvable.
  assert (H : reclaim_hp_ok (initial ∪ platform) = false).
  { unfold reclaim_hp_ok. cbv [In] in Hg, Hr.
    destruct Hg as [<-|[<-|[<-|[<-|[]]]]]; destruct Hr as [<-|[<-|[]]];
      rewrite Hgs, Hrs; cbn [negb andb orb]; rewrite ?orb_true_r;
      reflexivity. }
  rewrite H. rewrite ?andb_false_r. reflexivity.
Qed.

Lemma X7_witness :
  succeeds (Resolve (flags ["MR_NATIVE_GC"; "MR_RECLAIM_HP_ON_FAILURE"]) ∅)
  = false.
Proof.
  apply (X7_no_heap_reclamation_with_a_collector _ _
           "MR_NATIVE_GC" "MR_RECLAIM_HP_ON_FAILURE").
  - cbv [In]. tauto.
  - cbv [In]. tauto.
  - vm_compute. reflexivity.
  - vm_compute. reflexivity.
Defined.

(** ** What holds of every resolved configuration *)

Lemma run_invariant (c : cond) ds :
  Forall (fun d : directive => forall s s', d s = Ok s' -> c s' = c s) ds ->
  forall s r, run ds s = Ok r -> c r = c s.
Proof.
  induction 1 as [|d ds Hd _ IH]; intros s r H.
  - injection H as <-. reflexivity.
  - apply run_cons_ok in H as (s1 & H1 & H2).
    rewrite (IH _ _ H2). exact (Hd _ _ H1).
Qed.

(** A condition that a directive establishes and the directives after it
    leave as it is holds of the resolved configuration. *)
Lemma invariant_at k (d : directive) (c : cond) :
  rules !! k = Some d ->
  (forall s, post (d s) (fun s' => c s' = true)) ->
  Forall (fun d' : directive => forall s s', d' s = Ok s' -> c s' = c s)
    (drop (S k) rules) ->
  forall s r, run rules s = Ok r -> c r = true.
Proof.
  intros Hk Hd Hinv s r H.
  apply (run_rules_split k) in H as (s1 & _ & H).
  rewrite (drop_S (A := directive) _ _ _ Hk) in H.
  apply run_cons_ok in H as (s2 & H2 & H3).
  rewrite (run_invariant c _ Hinv _ _ H3).
  exact (post_ok _ _ _ (Hd s1) H2).
Qed.

Ltac settle :=
  cbn [Bool.eqb implb negb orb andb forallb existsb];
  first
    [ exact I
    | reflexivity
    | repeat match goal with
        | |- context [defined ?m ?s] => destruct (defined m s) eqn:?
        end;
      cbn [Bool.eqb implb negb orb andb] in *;
      first [ reflexivity | congruence ] ].

Ltac established :=
  intros s; exec; settle.

Ltac kept :=
  cbv [drop rules Conf.checks_and_implied Conf.determined
       Conf.platform_specific app];
  repeat (constructor; [intros s s' E; read_through; reflexivity|]);
  constructor.

Lemma resolved_category s r :
  run rules s = Ok r ->
  Bool.eqb (defined "MR_CONSERVATIVE_GC" r)
           (defined "MR_BOEHM_GC" r || defined "MR_MPS_GC" r) = true.
Proof.
  revert s r. apply (invariant_at 14 Conf.conservative_gc);
    [reflexivity | established | kept].
Qed.

Lemma resolved_might_reclaim s r :
  run rules s = Ok r ->
  implb (negb (defined "MR_CONSERVATIVE_GC" r) && negb (defined "MR_NATIVE_GC" r))
        (defined "MR_MIGHT_RECLAIM_HP_ON_FAILURE" r) = true.
Proof.
  revert s r. apply (invariant_at 15 Conf.might_reclaim_hp);
    [reflexivity | established | kept].
Qed.

Lemma resolved_reclaim s r :
  run rules s = Ok r ->
  implb (defined "MR_MIGHT_RECLAIM_HP_ON_FAILURE" r)
        (defined "MR_RECLAIM_HP_ON_FAILURE" r) = true.
Proof.
  revert s r. apply (invariant_at 16 Conf.reclaim_hp);
    [reflexivity | established | kept].
Qed.

Lemma resolved_reclaim_sane s r :
  run rules s = Ok r ->
  implb (defined "MR_RECLAIM_HP_ON_FAILURE" r)
        (defined "MR_MIGHT_RECLAIM_HP_ON_FAILURE" r
         && negb (defined "MR_CONSERVATIVE_GC" r)
         && negb (defined "MR_NATIVE_GC" r)) = true.
Proof.
  revert s r. apply (invariant_at 17 Conf.reclaim_hp_sanity);
    [reflexivity | established | kept].
Qed.

Lemma resolved_static s r :
  run rules s = Ok r ->
  Bool.eqb (defined "MR_STATIC_CODE_ADDRESSES" r)
           (negb (defined "MR_USE_GCC_NONLOCAL_GOTOS" r)
            || defined "MR_USE_ASM_LABELS" r) = true.
Proof.
  revert s r. apply (invariant_at 18 Conf.static_code_addresses);
    [reflexivity | established | kept].
Qed.

Lemma resolved_insert_labels s r :
  run rules s = Ok r ->
  Bool.eqb (defined "MR_INSERT_LABELS" r)
           (defined "MR_STACK_TRACE" r || defined "MR_NATIVE_GC" r
            || defined "MR_DEBUG_GOTOS" r || defined "MR_BYTECODE_CALLABLE" r
            || defined "MR_DEBUG_LABEL_NAMES" r) = true.
Proof.
  revert s r. apply (invariant_at 21 Conf.insert_labels);
    [reflexivity | established | kept].
Qed.

Lemma resolved_insert_entry_label_names s r :
  run rules s = Ok r ->
  Bool.eqb (defined "MR_INSERT_ENTRY_LABEL_NAMES" r)
           (defined "MR_MPROF_PROFILE_CALLS" r || defined "MR_DEBUG_GOTOS" r
            || defined "MR_DEBUG_AGC_SCHEDULING" r
            || defined "MR_DEBUG_LABEL_NAMES" r) = true.
Proof.
  revert s r. apply (invariant_at 22 Conf.insert_entry_label_names);
    [reflexivity | established | kept].
Qed.

Lemma resolved_insert_internal_label_names s r :
  run rules s = Ok r ->
  Bool.eqb (defined "MR_INSERT_INTERNAL_LABEL_NAMES" r)
           (defined "MR_DEBUG_GOTOS" r || defined "MR_DEBUG_AGC_SCHEDULING" r
            || defined "MR_DEBUG_LABEL_NAMES" r) = true.
Proof.
  revert s r. apply (invariant_at 23 Conf.insert_internal_label_names);
    [reflexivity | established | kept].
Qed.

Lemma resolved_need_entry_label s r :
  run rules s = Ok r ->
  implb (defined "MR_NATIVE_GC" r || defined "MR_DEBUG_GOTOS" r
         || defined "MR_INSERT_ENTRY_LABEL_NAMES" r)
        (defined "MR_NEED_ENTRY_LABEL_ARRAY" r)
  && implb (defined "MR_NEED_ENTRY_LABEL_ARRAY" r
            || defined "MR_MPROF_PROFILE_CALLS" r)
           (defined "MR_NEED_ENTRY_LABEL_INFO" r) = true.
Proof.
  revert s r. apply (invariant_at 24 Conf.need_entry_label);
    [reflexivity | established | kept].
Qed.

Lemma resolved_need_initialization s r :
  run rules s = Ok r ->
  Bool.eqb (defined "MR_NEED_INITIALIZATION_AT_START" r)
           (negb (defined "MR_STATIC_CODE_ADDRESSES" r)
            || defined "MR_MPROF_PROFILE_CALLS" r
            || defined "MR_MPROF_PROFILE_TIME" r
            || defined "MR_DEBUG_LABEL_NAMES" r) = true.
Proof.
  revert s r. apply (invariant_at 25 Conf.need_initialization_at_start);
    [reflexivity | established | kept].
Qed.

Lemma resolved_may_need_initialization s r :
  run rules s = Ok r ->
  Bool.eqb (defined "MR_MAY_NEED_INITIALIZATION" r)
           (defined "MR_NEED_INITIALIZATION_AT_START" r
            || defined "MR_INSERT_LABELS" r) = true.
Proof.
  revert s r. apply (invariant_at 26 Conf.may_need_initialization);
    [reflexivity | established | kept].
Qed.

Lemma resolved_deep_profiling s r :
  run rules s = Ok r ->
  Bool.eqb (defined "MR_DEEP_PROFILING_PORT_COUNTS" r)
           (defined "MR_DEEP_PROFILING" r)
  && implb (defined "MR_DEEP_PROFILING_TIMING" r
            || defined "MR_DEEP_PROFILING_CALL_SEQ" r
            || defined "MR_DEEP_PROFILING_MEMORY" r)
           (defined "MR_DEEP_PROFILING" r)
  && implb (defined "MR_DEEP_PROFILING" r
            && negb (defined "MR_DEEP_PROFILING_PERF_TEST" r))
           (defined "MR_DEEP_PROFILING_TIMING" r
            && defined "MR_DEEP_PROFILING_CALL_SEQ" r
            && defined "MR_DEEP_PROFILING_MEMORY" r) = true.
Proof.
  revert s r. apply (invariant_at 12 Conf.deep_profiling);
    [reflexivity | established | kept].
Qed.

Lemma resolved_lowlevel_debug s r :
  run rules s = Ok r ->
  implb (defined "MR_LOWLEVEL_DEBUG" r)
        (defined "MR_DEBUG_GOTOS" r && defined "MR_CHECK_FOR_OVERFLOW" r) = true.
Proof.
  revert s r. apply (invariant_at 11 Conf.lowlevel_debug);
    [reflexivity | established | kept].
Qed.

Lemma resolved_implied s r :
  run rules s = Ok r ->
  implb (defined "MR_USE_MINIMAL_MODEL_OWN_STACKS" r)
        (defined "MR_EXEC_TRACE_INFO_IN_CONTEXT" r) = true /\
  implb (defined "MR_MINIMAL_MODEL_DEBUG" r)
        (defined "MR_TABLE_STATISTICS" r) = true /\
  implb (negb (defined "MR_HIGHLEVEL_CODE" r) && defined "MR_THREAD_SAFE" r)
        (defined "MR_LL_PARALLEL_CONJ" r) = true /\
  implb (negb (defined "MR_DISABLE_CHECK_DU_EQ" r))
        (defined "MR_CHECK_DU_EQ" r) = true /\
  implb (defined "MR_DEEP_PROFILING_LOWLEVEL_DEBUG" r
         || defined "MR_TABLE_DEBUG" r || defined "MR_DEBUG_RETRY" r)
        (defined "MR_DEBUG_LABEL_NAMES" r) = true.
Proof.
  intros H. repeat split; revert s r H.
  - apply (invariant_at 6 Conf.exec_trace_info);
      [reflexivity | established | kept].
  - apply (invariant_at 7 Conf.minimal_model_debug);
      [reflexivity | established | kept].
  - apply (invariant_at 19 Conf.ll_parallel_conj);
      [reflexivity | established | kept].
  - apply (invariant_at 13 Conf.check_du_eq);
      [reflexivity | established | kept].
  - apply (invariant_at 20 Conf.debug_label_names);
      [reflexivity | established | kept].
Qed.

Lemma resolved_memory_protection s r :
  run rules s = Ok r ->
  implb (defined "MR_HAVE_SIGINFO" r && defined "MR_PC_ACCESS" r)
        (defined "MR_CAN_GET_PC_AT_SIGNAL" r)
  && implb (defined "MR_HAVE_MPROTECT" r && defined "MR_HAVE_SIGINFO" r
            || defined "_WIN32" r)
           (defined "MR_CHECK_OVERFLOW_VIA_MPROTECT" r)
  && implb (defined "MR_HAVE_MPROTECT" r || defined "_WIN32" r)
           (defined "MR_PROTECTPAGE" r)
  && implb (defined "_MSC_VER" r)
           (defined "MR_MSVC_STRUCTURED_EXCEPTIONS" r) = true.
Proof.
  revert s r. apply (invariant_at 27 Conf.memory_protection);
    [reflexivity | established | kept].
Qed.

Lemma resolved_win32 s r :
  run rules s = Ok r ->
  implb (defined "_WIN32" r)
        (all_defined
           [ "MR_WIN32"; "MR_WIN32_GETSYSTEMINFO"; "MR_WIN32_VIRTUAL_ALLOC";
             "MR_WIN32_GETPROCESSTIMES"; "MR_BROKEN_ST_INO" ] r) = true.
Proof.
  revert s r. apply (invariant_at 28 Conf.win32);
    [reflexivity | intros s; unfold all_defined; cbn [forallb]; exec; settle
    | unfold all_defined; cbn [forallb]; kept].
Qed.

Lemma resolved_mac_osx s r :
  run rules s = Ok r ->
  implb (defined "__APPLE__" r && defined "__MACH__" r)
        (defined "MR_MAC_OSX" r) = true.
Proof.
  revert s r. apply (invariant_at 29 Conf.mac_osx);
    [reflexivity | established | kept].
Qed.

Lemma resolved_values s r :
  run rules s = Ok r ->
  implb (defined "MR_HIGHLEVEL_CODE" r) (has_value "MR_BOXED_FLOAT" 1 r) = true /\
  implb (defined "__pic__" r || defined "__PIC__" r) (has_value "MR_PIC" 1 r)
  = true.
Proof.
  intros H. split; revert s r H.
  - apply (invariant_at 8 Conf.boxed_float);
      [reflexivity | | unfold has_value; kept].
    intros s. unfold has_value. exec; rewrite ?lookup_insert_eq; reflexivity.
  - apply (invariant_at 9 Conf.pic); [reflexivity | | unfold has_value; kept].
    intros s. unfold has_value. exec; rewrite ?lookup_insert_eq; reflexivity.
Qed.

Lemma resolved_debug_agc_all s r :
  run rules s = Ok r ->
  implb (agc_all_set r) (all_defined debug_agc_macros r) = true.
Proof.
  revert s r. apply (invariant_at 2 Conf.debug_agc_all);
    [ reflexivity
    |
    | unfold agc_all_set, all_defined; cbn [forallb debug_agc_macros]; kept ].
  intros s. unfold post, Conf.debug_agc_all, when_value, agc_all_set.
  destruct (s !! "MR_DEBUG_AGC_ALL") as [[|n]|] eqn:E; [exact I| |].
  - destruct (cpp_true n) eqn:Hn.
    + cbv [seq define]. rewrite !lookup_insert_ne by discriminate.
      rewrite E, Hn. unfold all_defined.
      cbn [forallb debug_agc_macros implb negb].
      simpl_defined. reflexivity.
    + rewrite E, Hn. reflexivity.
  - rewrite E. reflexivity.
Qed.

Lemma implb_elim a b : implb a b = true -> a = true -> b = true.
Proof. intros H ->. exact H. Qed.

Ltac not_written :=
  cbv [written_macros In];
  let H := fresh in
  intros H; repeat (destruct H as [H|H]; [discriminate H|]); exact H.

(** A macro the header does not write is defined in the resolved
    configuration exactly when it was supplied. *)
Lemma unwritten_defined m s r :
  ~ In m written_macros -> run rules s = Ok r -> defined m r = defined m s.
Proof. intros Hm H. apply defined_lookup, (preserves_unwritten m Hm _ _ H). Qed.

(** X8. In every resolved configuration MR_CONSERVATIVE_GC is defined
    exactly when one of the two conservative collectors is. *)
Theorem X8_category_iff_collector (initial platform r : FlagStore) :
  Resolve initial platform = Ok r ->
  defined "MR_CONSERVATIVE_GC" r
  = defined "MR_BOEHM_GC" r || defined "MR_MPS_GC" r.
Proof. intros H. apply Bool.eqb_prop, (resolved_category _ _ H). Qed.

Lemma X8_witness :
  exists r, Resolve (flags ["MR_CONSERVATIVE_GC"]) ∅ = Ok r /\
    defined "MR_CONSERVATIVE_GC" r
    = defined "MR_BOEHM_GC" r || defined "MR_MPS_GC" r.
Proof.
  destruct (holds_ok (fun _ => true) (Resolve (flags ["MR_CONSERVATIVE_GC"]) ∅))
    as (r & E & _); [vm_compute; reflexivity|].
  exists r. split; [exact E|].
  exact (X8_category_iff_collector (flags ["MR_CONSERVATIVE_GC"]) ∅ r E).
Defined.

(** X9. In every resolved configuration MR_RECLAIM_HP_ON_FAILURE and
    MR_MIGHT_RECLAIM_HP_ON_FAILURE are defined together, and exactly when
    neither MR_CONSERVATIVE_GC nor MR_NATIVE_GC is. *)
Theorem X9_reclaim_iff_no_collector (initial platform r : FlagStore) :
  Resolve initial platform = Ok r ->
  defined "MR_RECLAIM_HP_ON_FAILURE" r
  = defined "MR_MIGHT_RECLAIM_HP_ON_FAILURE" r /\
  defined "MR_RECLAIM_HP_ON_FAILURE" r
  = negb (defined "MR_CONSERVATIVE_GC" r || defined "MR_NATIVE_GC" r).
Proof.
  intros H.
  pose proof (resolved_might_reclaim _ _ H) as H1.
  pose proof (resolved_reclaim _ _ H) as H2.
  pose proof (resolved_reclaim_sane _ _ H) as H3.
  revert H1 H2 H3.
  destruct (defined "MR_RECLAIM_HP_ON_FAILURE" r),
    (defined "MR_MIGHT_RECLAIM_HP_ON_FAILURE" r),
    (defined "MR_CONSERVATIVE_GC" r), (defined "MR_NATIVE_GC" r);
    cbn; intros; split; congruence.
Qed.

Lemma X9_witness :
  exists r, Resolve (flags ["MR_NATIVE_GC"]) ∅ = Ok r /\
    defined "MR_RECLAIM_HP_ON_FAILURE" r
    = negb (defined "MR_CONSERVATIVE_GC" r || defined "MR_NATIVE_GC" r).
Proof.
  destruct (holds_ok (fun _ => true) (Resolve (flags ["MR_NATIVE_GC"]) ∅))
    as (r & E & _); [vm_compute; reflexivity|].
  exists r. split; [exact E|].
  exact (proj2 (X9_reclaim_iff_no_collector (flags ["MR_NATIVE_GC"]) ∅ r E)).
Defined.

(** X10. In every resolved configuration the label-table and initialization
    macros are exactly what lines 706-847 derive from the other macros of
    that configuration. *)
Theorem X10_label_tables (initial platform r : FlagStore) :
  Resolve initial platform = Ok r ->
  defined "MR_STATIC_CODE_ADDRESSES" r
  = negb (defined "MR_USE_GCC_NONLOCAL_GOTOS" r) || defined "MR_USE_ASM_LABELS" r /\
  defined "MR_INSERT_LABELS" r
  = defined "MR_STACK_TRACE" r || defined "MR_NATIVE_GC" r
    || defined "MR_DEBUG_GOTOS" r || defined "MR_BYTECODE_CALLABLE" r
    || defined "MR_DEBUG_LABEL_NAMES" r /\
  defined "MR_INSERT_ENTRY_LABEL_NAMES" r
  = defined "MR_MPROF_PROFILE_CALLS" r || defined "MR_DEBUG_GOTOS" r
    || defined "MR_DEBUG_AGC_SCHEDULING" r || defined "MR_DEBUG_LABEL_NAMES" r /\
  defined "MR_INSERT_INTERNAL_LABEL_NAMES" r
  = defined "MR_DEBUG_GOTOS" r || defined "MR_DEBUG_AGC_SCHEDULING" r
    || defined "MR_DEBUG_LABEL_NAMES" r /\
  defined "MR_NEED_INITIALIZATION_AT_START" r
  = negb (defined "MR_STATIC_CODE_ADDRESSES" r)
    || defined "MR_MPROF_PROFILE_CALLS" r || defined "MR_MPROF_PROFILE_TIME" r
    || defined "MR_DEBUG_LABEL_NAMES" r /\
  defined "MR_MAY_NEED_INITIALIZATION" r
  = defined "MR_NEED_INITIALIZATION_AT_START" r || defined "MR_INSERT_LABELS" r.
Proof.
  intros H. repeat split; apply Bool.eqb_prop.
  - exact (resolved_static _ _ H).
  - exact (resolved_insert_labels _ _ H).
  - exact (resolved_insert_entry_label_names _ _ H).
  - exact (resolved_insert_internal_label_names _ _ H).
  - exact (resolved_need_initialization _ _ H).
  - exact (resolved_may_need_initialization _ _ H).
Qed.

Lemma X10_witness :
  exists r, Resolve (flags ["MR_EXEC_TRACE"; "MR_USE_GCC_NONLOCAL_GOTOS"]) ∅ = Ok r /\
    defined "MR_MAY_NEED_INITIALIZATION" r
    = defined "MR_NEED_INITIALIZATION_AT_START" r || defined "MR_INSERT_LABELS" r.
Proof.
  destruct (holds_ok (fun _ => true)
              (Resolve (flags ["MR_EXEC_TRACE"; "MR_USE_GCC_NONLOCAL_GOTOS"]) ∅))
    as (r & E & _); [vm_compute; reflexivity|].
  exists r. split; [exact E|].
  apply (X10_label_tables
           (flags ["MR_EXEC_TRACE"; "MR_USE_GCC_NONLOCAL_GOTOS"]) ∅ r E).
Defined.

(** X11. The measurement macros of deep profiling are the header's to set:
    in every resolved configuration MR_DEEP_PROFILING_PORT_COUNTS is
    defined exactly when MR_DEEP_PROFILING was supplied; without
    MR_DEEP_PROFILING none of the four is defined, supplied or not; with it
    and without MR_DEEP_PROFILING_PERF_TEST all four are. *)
Theorem X11_deep_profiling_measurements (initial platform r : FlagStore) :
  Resolve initial platform = Ok r ->
  defined "MR_DEEP_PROFILING_PORT_COUNTS" r
  = defined "MR_DEEP_PROFILING" (initial ∪ platform) /\
  (~ supplied "MR_DEEP_PROFILING" initial platform ->
   none_defined
     [ "MR_DEEP_PROFILING_PORT_COUNTS"; "MR_DEEP_PROFILING_TIMING";
       "MR_DEEP_PROFILING_CALL_SEQ"; "MR_DEEP_PROFILING_MEMORY" ] r = true) /\
  (supplied "MR_DEEP_PROFILING" initial platform ->
   ~ supplied "MR_DEEP_PROFILING_PERF_TEST" initial platform ->
   all_defined
     [ "MR_DEEP_PROFILING_PORT_COUNTS"; "MR_DEEP_PROFILING_TIMING";
       "MR_DEEP_PROFILING_CALL_SEQ"; "MR_DEEP_PROFILING_MEMORY" ] r = true).
Proof.
  unfold Resolve, mercury_conf_param_body, supplied. intros H.
  pose proof (resolved_deep_profiling _ _ H) as Hd.
  rewrite (unwritten_defined "MR_DEEP_PROFILING" _ _ ltac:(not_written) H) in Hd.
  rewrite (unwritten_defined "MR_DEEP_PROFILING_PERF_TEST" _ _
             ltac:(not_written) H) in Hd.
  unfold none_defined, all_defined. cbn [forallb existsb].
  revert Hd.
  destruct (defined "MR_DEEP_PROFILING" (initial ∪ platform)),
    (defined "MR_DEEP_PROFILING_PERF_TEST" (initial ∪ platform)),
    (defined "MR_DEEP_PROFILING_PORT_COUNTS" r),
    (defined "MR_DEEP_PROFILING_TIMING" r),
    (defined "MR_DEEP_PROFILING_CALL_SEQ" r),
    (defined "MR_DEEP_PROFILING_MEMORY" r);
    cbn; intros; repeat split; intros; congruence.
Qed.

Lemma X11_witness :
  exists r, Resolve (flags ["MR_DEEP_PROFILING_TIMING"]) ∅ = Ok r /\
    none_defined
      [ "MR_DEEP_PROFILING_PORT_COUNTS"; "MR_DEEP_PROFILING_TIMING";
        "MR_DEEP_PROFILING_CALL_SEQ"; "MR_DEEP_PROFILING_MEMORY" ] r = true.
Proof.
  destruct (holds_ok (fun _ => true)
              (Resolve (flags ["MR_DEEP_PROFILING_TIMING"]) ∅))
    as (r & E & _); [vm_compute; reflexivity|].
  exists r. split; [exact E|].
  apply (X11_deep_profiling_measurements
           (flags ["MR_DEEP_PROFILING_TIMING"]) ∅ r E).
  vm_compute. discriminate.
Defined.

(** X12. Low-level debugging brings the label tables with it: when
    MR_LOWLEVEL_DEBUG is supplied and the header resolves, the resolved
    configuration has MR_DEBUG_GOTOS and MR_CHECK_FOR_OVERFLOW, and with
    them the label table, the names of entry and internal labels, the entry
    label array and info, and the initialization code. *)
Theorem X12_lowlevel_debug_needs_label_tables (initial platform r : FlagStore) :
  Resolve initial platform = Ok r ->
  supplied "MR_LOWLEVEL_DEBUG" initial platform ->
  all_defined
    [ "MR_DEBUG_GOTOS"; "MR_CHECK_FOR_OVERFLOW"; "MR_INSERT_LABELS";
      "MR_INSERT_ENTRY_LABEL_NAMES"; "MR_INSERT_INTERNAL_LABEL_NAMES";
      "MR_NEED_ENTRY_LABEL_ARRAY"; "MR_NEED_ENTRY_LABEL_INFO";
      "MR_MAY_NEED_INITIALIZATION" ] r = true.
Proof.
  unfold Resolve, mercury_conf_param_body, supplied. intros H Hs.
  rewrite <- (unwritten_defined "MR_LOWLEVEL_DEBUG" _ _ ltac:(not_written) H)
    in Hs.
  pose proof (implb_elim _ _ (resolved_lowlevel_debug _ _ H) Hs) as Hg.
  apply andb_true_iff in Hg as [Hg Hc].
  assert (Hil : defined "MR_INSERT_LABELS" r = true).
  { rewrite (Bool.eqb_prop _ _ (resolved_insert_labels _ _ H)), Hg. btauto. }
  assert (Hie : defined "MR_INSERT_ENTRY_LABEL_NAMES" r = true).
  { rewrite (Bool.eqb_prop _ _ (resolved_insert_entry_label_names _ _ H)), Hg.
    btauto. }
  assert (Hii : defined "MR_INSERT_INTERNAL_LABEL_NAMES" r = true).
  { rewrite (Bool.eqb_prop _ _ (resolved_insert_internal_label_names _ _ H)), Hg.
    btauto. }
  assert (Hm : defined "MR_MAY_NEED_INITIALIZATION" r = true).
  { rewrite (Bool.eqb_prop _ _ (resolved_may_need_initialization _ _ H)), Hil.
    btauto. }
  assert (Hn : defined "MR_NEED_ENTRY_LABEL_ARRAY" r = true
               /\ defined "MR_NEED_ENTRY_LABEL_INFO" r = true).
  { pose proof (resolved_need_entry_label _ _ H) as Hn.
    rewrite Hg, orb_true_r in Hn. cbn [orb implb] in Hn.
    destruct (defined "MR_NEED_ENTRY_LABEL_ARRAY" r); [|discriminate Hn].
    cbn [orb implb andb] in Hn. split; [reflexivity | exact Hn]. }
  destruct Hn as [Hna Hni].
  unfold all_defined. cbn [forallb].
  rewrite Hg, Hc, Hil, Hie, Hii, Hna, Hni, Hm. reflexivity.
Qed.

Lemma X12_witness :
  exists r, Resolve (flags ["MR_LOWLEVEL_DEBUG"]) ∅ = Ok r /\
    all_defined
      [ "MR_DEBUG_GOTOS"; "MR_CHECK_FOR_OVERFLOW"; "MR_INSERT_LABELS";
        "MR_INSERT_ENTRY_LABEL_NAMES"; "MR_INSERT_INTERNAL_LABEL_NAMES";
        "MR_NEED_ENTRY_LABEL_ARRAY"; "MR_NEED_ENTRY_LABEL_INFO";
        "MR_MAY_NEED_INITIALIZATION" ] r = true.
Proof.
  destruct (holds_ok (fun _ => true) (Resolve (flags ["MR_LOWLEVEL_DEBUG"]) ∅))
    as (r & E & _); [vm_compute; reflexivity|].
  exists r. split; [exact E|].
  apply (X12_lowlevel_debug_needs_label_tables
           (flags ["MR_LOWLEVEL_DEBUG"]) ∅ r E).
  vm_compute. reflexivity.
Defined.

(** X13. The platform sections only add: when the header resolves, _WIN32
    gives the five Win32 macros, overflow checks through page protection
    and MR_PROTECTPAGE, and no MR_PIC_REG; MR_HAVE_MPROTECT gives
    MR_PROTECTPAGE, and with MR_HAVE_SIGINFO the overflow checks;
    MR_HAVE_SIGINFO with MR_PC_ACCESS gives MR_CAN_GET_PC_AT_SIGNAL; _MSC_VER
    gives structured exceptions; __APPLE__ with __MACH__ gives MR_MAC_OSX. *)
Theorem X13_platform_bundles (initial platform r : FlagStore) :
  Resolve initial platform = Ok r ->
  (supplied "_WIN32" initial platform ->
   all_defined
     [ "MR_WIN32"; "MR_WIN32_GETSYSTEMINFO"; "MR_WIN32_VIRTUAL_ALLOC";
       "MR_WIN32_GETPROCESSTIMES"; "MR_BROKEN_ST_INO";
       "MR_CHECK_OVERFLOW_VIA_MPROTECT"; "MR_PROTECTPAGE" ] r = true /\
   defined "MR_PIC_REG" r = false) /\
  (supplied "MR_HAVE_MPROTECT" initial platform ->
   defined "MR_PROTECTPAGE" r = true /\
   (supplied "MR_HAVE_SIGINFO" initial platform ->
    defined "MR_CHECK_OVERFLOW_VIA_MPROTECT" r = true)) /\
  (supplied "MR_HAVE_SIGINFO" initial platform ->
   supplied "MR_PC_ACCESS" initial platform ->
   defined "MR_CAN_GET_PC_AT_SIGNAL" r = true) /\
  (supplied "_MSC_VER" initial platform ->
   defined "MR_MSVC_STRUCTURED_EXCEPTIONS" r = true) /\
  (supplied "__APPLE__" initial platform ->
   supplied "__MACH__" initial platform ->
   defined "MR_MAC_OSX" r = true).
Proof.
  unfold Resolve, mercury_conf_param_body, supplied. intros H.
  pose proof (resolved_memory_protection _ _ H) as Hm.
  pose proof (resolved_win32 _ _ H) as Hw.
  pose proof (resolved_mac_osx _ _ H) as Ha.
  pose proof (resolved_pic_reg _ _ H) as Hp.
  rewrite !(unwritten_defined "_WIN32" _ _ ltac:(not_written) H) in Hm, Hw.
  rewrite !(unwritten_defined "MR_HAVE_MPROTECT" _ _ ltac:(not_written) H) in Hm.
  rewrite !(unwritten_defined "MR_HAVE_SIGINFO" _ _ ltac:(not_written) H) in Hm.
  rewrite !(unwritten_defined "MR_PC_ACCESS" _ _ ltac:(not_written) H) in Hm.
  rewrite !(unwritten_defined "_MSC_VER" _ _ ltac:(not_written) H) in Hm.
  rewrite !(unwritten_defined "__APPLE__" _ _ ltac:(not_written) H) in Ha.
  rewrite !(unwritten_defined "__MACH__" _ _ ltac:(not_written) H) in Ha.
  apply andb_true_iff in Hm as [Hm Hmsvc].
  apply andb_true_iff in Hm as [Hm Hpage].
  apply andb_true_iff in Hm as [Hpc Hov].
  unfold all_defined in *. cbn [forallb] in *.
  split; [|split; [|split; [|split]]].
  - intros Hs. rewrite Hs in Hw, Hov, Hpage. rewrite orb_true_r in Hov, Hpage.
    cbn [implb] in Hw, Hov, Hpage. split.
    + rewrite !andb_true_iff in Hw. rewrite Hov, Hpage.
      destruct Hw as (-> & -> & -> & -> & -> & _). reflexivity.
    + rewrite Hp, Hs, orb_true_r. reflexivity.
  - intros Hs. rewrite Hs in Hpage, Hov. split; [exact Hpage|].
    intros Hi. rewrite Hi in Hov. exact Hov.
  - intros Hs Ha'. rewrite Hs, Ha' in Hpc. exact Hpc.
  - intros Hs. rewrite Hs in Hmsvc. exact Hmsvc.
  - intros Hs Hm'. rewrite Hs, Hm' in Ha. exact Ha.
Qed.

Lemma X13_witness :
  exists r,
    Resolve (flags ["MR_PIC_REG"]) (flags ["_WIN32"; "__pic__"]) = Ok r /\
    defined "MR_PIC_REG" r = false /\
    defined "MR_PROTECTPAGE" r = true.
Proof.
  destruct (holds_ok (fun _ => true)
              (Resolve (flags ["MR_PIC_REG"]) (flags ["_WIN32"; "__pic__"])))
    as (r & E & _); [vm_compute; reflexivity|].
  exists r. split; [exact E|].
  destruct (proj1 (X13_platform_bundles
                     (flags ["MR_PIC_REG"]) (flags ["_WIN32"; "__pic__"]) r E))
    as [Hb Hp]; [vm_compute; reflexivity|].
  split; [exact Hp|].
  unfold all_defined in Hb. cbn [forallb] in Hb.
  rewrite !andb_true_iff in Hb. tauto.
Defined.

Lemma before_debug_agc_all m :
  In m ("MR_DEBUG_AGC_ALL" :: debug_agc_macros) ->
  preserves m (run (take 2 rules)).
Proof.
  intros H. cbv [debug_agc_macros In] in H.
  repeat (destruct H as [<-|H]; [frames|]). destruct H.
Qed.

Lemma after_debug_agc_all m :
  In m debug_agc_macros -> preserves m (run (drop 3 rules)).
Proof.
  intros H. cbv [debug_agc_macros In] in H.
  repeat (destruct H as [<-|H]; [frames|]). destruct H.
Qed.

Lemma debug_agc_all_unset s s' :
  agc_all_set s = false -> Conf.debug_agc_all s = Ok s' -> s' = s.
Proof.
  unfold agc_all_set, Conf.debug_agc_all, when_value.
  destruct (s !! "MR_DEBUG_AGC_ALL") as [[|n]|]; [discriminate 2| |].
  - destruct (cpp_true n); [discriminate 1|]. intros _ [= <-]. reflexivity.
  - intros _ [= <-]. reflexivity.
Qed.

(** X14. MR_DEBUG_AGC_ALL is tested by value: defined with an integer body
    that is not 0 in the 64 bits of the preprocessor, it gives, when the
    header resolves, the six accurate-collector debugging macros and, through
    MR_DEBUG_AGC_SCHEDULING, the label names and the entry label array and
    info; defined with an integer body that is 0 there (0 itself, or
    2^64), or not defined, it leaves each of the six as it was supplied. *)
Theorem X14_debug_agc_all_by_value (initial platform r : FlagStore) :
  Resolve initial platform = Ok r ->
  (agc_all_set (initial ∪ platform) = true ->
   all_defined
     (debug_agc_macros
      ++ [ "MR_INSERT_ENTRY_LABEL_NAMES"; "MR_INSERT_INTERNAL_LABEL_NAMES";
           "MR_NEED_ENTRY_LABEL_ARRAY"; "MR_NEED_ENTRY_LABEL_INFO" ])%list r
   = true) /\
  (agc_all_set (initial ∪ platform) = false ->
   forall m, In m debug_agc_macros ->
     defined m r = defined m (initial ∪ platform)).
Proof.
  unfold Resolve, mercury_conf_param_body. intros H. split.
  - intros Hs.
    assert (Hr : agc_all_set r = true).
    { unfold agc_all_set in *.
      rewrite (preserves_unwritten "MR_DEBUG_AGC_ALL" ltac:(not_written) _ _ H).
      exact Hs. }
    pose proof (implb_elim _ _ (resolved_debug_agc_all _ _ H) Hr) as Hall.
    assert (Hsch : defined "MR_DEBUG_AGC_SCHEDULING" r = true).
    { unfold all_defined in Hall. cbn [forallb debug_agc_macros] in Hall.
      apply andb_true_iff in Hall as [Hall _]. exact Hall. }
    assert (Hie : defined "MR_INSERT_ENTRY_LABEL_NAMES" r = true).
    { rewrite (Bool.eqb_prop _ _ (resolved_insert_entry_label_names _ _ H)), Hsch.
      btauto. }
    assert (Hii : defined "MR_INSERT_INTERNAL_LABEL_NAMES" r = true).
    { rewrite (Bool.eqb_prop _ _ (resolved_insert_internal_label_names _ _ H)),
        Hsch. btauto. }
    pose proof (resolved_need_entry_label _ _ H) as Hn.
    rewrite Hie, orb_true_r in Hn. cbn [implb] in Hn.
    destruct (defined "MR_NEED_ENTRY_LABEL_ARRAY" r) eqn:Hna; [|discriminate Hn].
    cbn [orb implb andb] in Hn.
    unfold all_defined in *. rewrite forallb_app, Hall. cbn [forallb andb].
    rewrite Hie, Hii, Hna, Hn. reflexivity.
  - intros Hs m Hm.
    apply (run_rules_split 2) in H as (s1 & H1 & H2).
    change (drop 2 rules) with (Conf.debug_agc_all :: drop 3 rules) in H2.
    apply run_cons_ok in H2 as (s2 & H2 & H3).
    assert (Hs1 : agc_all_set s1 = false).
    { unfold agc_all_set in *.
      rewrite (before_debug_agc_all "MR_DEBUG_AGC_ALL" ltac:(left; reflexivity)
                 _ _ H1).
      exact Hs. }
    apply (debug_agc_all_unset _ _ Hs1) in H2. subst s2.
    rewrite (preserves_defined _ _ _ _ (after_debug_agc_all m Hm) H3).
    apply (preserves_defined _ _ _ _
             (before_debug_agc_all m ltac:(right; exact Hm)) H1).
Qed.

Lemma X14_witness :
  (exists r, Resolve (<["MR_DEBUG_AGC_ALL" := Num 1]> ∅) ∅ = Ok r /\
     defined "MR_NEED_ENTRY_LABEL_ARRAY" r = true) /\
  (exists r, Resolve (<["MR_DEBUG_AGC_ALL" := Num 0]> ∅) ∅ = Ok r /\
     defined "MR_DEBUG_AGC_SCHEDULING" r = false).
Proof.
  split.
  - destruct (holds_ok (fun _ => true)
                (Resolve (<["MR_DEBUG_AGC_ALL" := Num 1]> ∅) ∅))
      as (r & E & _); [vm_compute; reflexivity|].
    exists r. split; [exact E|].
    pose proof (proj1 (X14_debug_agc_all_by_value
                         (<["MR_DEBUG_AGC_ALL" := Num 1]> ∅) ∅ r E)) as Hall.
    unfold all_defined in Hall. cbn [forallb debug_agc_macros app] in Hall.
    rewrite !andb_true_iff in Hall.
    apply Hall. vm_compute. reflexivity.
  - destruct (holds_ok (fun _ => true)
                (Resolve (<["MR_DEBUG_AGC_ALL" := Num 0]> ∅) ∅))
      as (r & E & _); [vm_compute; reflexivity|].
    exists r. split; [exact E|].
    rewrite (proj2 (X14_debug_agc_all_by_value
                      (<["MR_DEBUG_AGC_ALL" := Num 0]> ∅) ∅ r E)).
    + vm_compute. reflexivity.
    + vm_compute. reflexivity.
    + left. reflexivity.
Defined.

(** X15. The implied parameters of lines 529-550, 556-558, 616-618,
    717-719 and 729-732: when the header resolves, own-stack tabling gives
    MR_EXEC_TRACE_INFO_IN_CONTEXT, MR_MINIMAL_MODEL_DEBUG gives
    MR_TABLE_STATISTICS, MR_HIGHLEVEL_CODE gives MR_BOXED_FLOAT with the body
    1 whatever body was supplied, __pic__ or __PIC__ gives MR_PIC with the
    body 1, MR_THREAD_SAFE without MR_HIGHLEVEL_CODE gives
    MR_LL_PARALLEL_CONJ, MR_CHECK_DU_EQ is defined unless
    MR_DISABLE_CHECK_DU_EQ is supplied, and each of the three debugging
    facilities gives MR_DEBUG_LABEL_NAMES. *)
Theorem X15_implied_parameters (initial platform r : FlagStore) :
  Resolve initial platform = Ok r ->
  (supplied "MR_USE_MINIMAL_MODEL_OWN_STACKS" initial platform ->
   defined "MR_EXEC_TRACE_INFO_IN_CONTEXT" r = true) /\
  (supplied "MR_MINIMAL_MODEL_DEBUG" initial platform ->
   defined "MR_TABLE_STATISTICS" r = true) /\
  (supplied "MR_HIGHLEVEL_CODE" initial platform ->
   r !! "MR_BOXED_FLOAT" = Some (Num 1)) /\
  (supplied "__pic__" initial platform \/ supplied "__PIC__" initial platform ->
   r !! "MR_PIC" = Some (Num 1)) /\
  (supplied "MR_THREAD_SAFE" initial platform ->
   ~ supplied "MR_HIGHLEVEL_CODE" initial platform ->
   defined "MR_LL_PARALLEL_CONJ" r = true) /\
  (~ supplied "MR_DISABLE_CHECK_DU_EQ" initial platform ->
   defined "MR_CHECK_DU_EQ" r = true) /\
  (supplied "MR_DEEP_PROFILING_LOWLEVEL_DEBUG" initial platform \/
   supplied "MR_TABLE_DEBUG" initial platform \/
   supplied "MR_DEBUG_RETRY" initial platform ->
   defined "MR_DEBUG_LABEL_NAMES" r = true).
Proof.
  unfold Resolve, mercury_conf_param_body, supplied. intros H.
  destruct (resolved_implied _ _ H) as (Ho & Hm & Hl & Hc & Hd).
  destruct (resolved_values _ _ H) as (Hb & Hp).
  rewrite !(unwritten_defined "MR_USE_MINIMAL_MODEL_OWN_STACKS" _ _
              ltac:(not_written) H) in Ho.
  rewrite !(unwritten_defined "MR_MINIMAL_MODEL_DEBUG" _ _
              ltac:(not_written) H) in Hm.
  rewrite !(unwritten_defined "MR_HIGHLEVEL_CODE" _ _ ltac:(not_written) H)
    in Hl, Hb.
  rewrite !(unwritten_defined "MR_THREAD_SAFE" _ _ ltac:(not_written) H) in Hl.
  rewrite !(unwritten_defined "MR_DISABLE_CHECK_DU_EQ" _ _
              ltac:(not_written) H) in Hc.
  rewrite !(unwritten_defined "MR_DEEP_PROFILING_LOWLEVEL_DEBUG" _ _
              ltac:(not_written) H) in Hd.
  rewrite !(unwritten_defined "MR_TABLE_DEBUG" _ _ ltac:(not_written) H) in Hd.
  rewrite !(unwritten_defined "MR_DEBUG_RETRY" _ _ ltac:(not_written) H) in Hd.
  rewrite !(unwritten_defined "__pic__" _ _ ltac:(not_written) H) in Hp.
  rewrite !(unwritten_defined "__PIC__" _ _ ltac:(not_written) H) in Hp.
  assert (Hv : forall m, has_value m 1 r = true -> r !! m = Some (Num 1)).
  { intros m. unfold has_value.
    destruct (r !! m) as [[|k]|]; try discriminate.
    intros Hk. apply Z.eqb_eq in Hk. subst k. reflexivity. }
  split; [|split; [|split; [|split; [|split; [|split]]]]].
  - intros Hs. rewrite Hs in Ho. exact Ho.
  - intros Hs. rewrite Hs in Hm. exact Hm.
  - intros Hs. rewrite Hs in Hb. apply Hv, Hb.
  - intros Hs. apply Hv. apply (implb_elim _ _ Hp).
    apply orb_true_iff. exact Hs.
  - intros Hs Hh. apply not_true_is_false in Hh. rewrite Hs, Hh in Hl. exact Hl.
  - intros Hs. apply not_true_is_false in Hs. rewrite Hs in Hc. exact Hc.
  - intros Hs. apply (implb_elim _ _ Hd).
    rewrite !orb_true_iff. tauto.
Qed.

Lemma X15_witness :
  exists r,
    Resolve (<["MR_BOXED_FLOAT" := Num 0]> (flags ["MR_HIGHLEVEL_CODE"])) ∅
    = Ok r /\
    r !! "MR_BOXED_FLOAT" = Some (Num 1).
Proof.
  destruct (holds_ok (fun _ => true)
              (Resolve (<["MR_BOXED_FLOAT" := Num 0]>
                          (flags ["MR_HIGHLEVEL_CODE"])) ∅))
    as (r & E & _); [vm_compute; reflexivity|].
  exists r. split; [exact E|].
  apply (X15_implied_parameters
           (<["MR_BOXED_FLOAT" := Num 0]> (flags ["MR_HIGHLEVEL_CODE"])) ∅ r E).
  vm_compute. reflexivity.
Defined.

(** * The include guard (lines 30-31) *)

Lemma include_again s :
  defined "MERCURY_CONF_PARAM_H" s = true -> mercury_conf_param s = Ok s.
Proof.
  intros H. cbv [mercury_conf_param when if_else cnot skip]. rewrite H.
  reflexivity.
Qed.

Lemma include_first s :
  defined "MERCURY_CONF_PARAM_H" s = false ->
  mercury_conf_param s = run rules (<["MERCURY_CONF_PARAM_H" := Empty]> s).
Proof.
  intros H.
  cbv [mercury_conf_param when if_else cnot skip seq define
       mercury_conf_param_body].
  rewrite H. reflexivity.
Qed.






Lemma unwritten_ne_guard m :
  ~ In m written_macros -> "MERCURY_CONF_PARAM_H" <> m.
Proof. intros H <-. apply H. left. reflexivity. Qed.

(** X1. A macro the header has no [#define] or [#undef] for reaches the
    table the header leaves with the body it was supplied with, or undefined
    if it was not supplied. *)
Theorem X1_unwritten_macros_pass_through (initial platform r : FlagStore) m :
  ~ In m written_macros ->
  Include initial platform = Ok r ->
  r !! m = (initial ∪ platform) !! m.
Proof.
  unfold Include. intros Hm H.
  destruct (defined "MERCURY_CONF_PARAM_H" (initial ∪ platform)) eqn:Hg.
  - rewrite (include_again _ Hg) in H. injection H as <-. reflexivity.
  - rewrite (include_first _ Hg) in H.
    rewrite (preserves_unwritten m Hm _ _ H).
    apply lookup_insert_ne, unwritten_ne_guard, Hm.
Qed.

Lemma X1_witness :
  exists r,
    Include (<["MR_TAGBITS" := Num 3]> (flags ["MR_THREAD_SAFE"]))
            (flags ["_WIN32"]) = Ok r /\
    r !! "MR_TAGBITS" = Some (Num 3).
Proof.
  destruct (holds_ok (fun _ => true)
              (Include (<["MR_TAGBITS" := Num 3]> (flags ["MR_THREAD_SAFE"]))
                       (flags ["_WIN32"])))
    as (r & E & _); [vm_compute; reflexivity|].
  exists r. split; [exact E|].
  rewrite (X1_unwritten_macros_pass_through
             (<["MR_TAGBITS" := Num 3]> (flags ["MR_THREAD_SAFE"]))
             (flags ["_WIN32"]) r "MR_TAGBITS").
  - vm_compute. reflexivity.
  - not_written.
  - exact E.
Defined.

Lemma resolvable_guard b s :
  resolvable (<["MERCURY_CONF_PARAM_H" := b]> s) = resolvable s.
Proof.
  unfold resolvable. unfold_checks.
  rewrite !lookup_insert_ne by discriminate. simpl_defined. reflexivity.
Qed.

Lemma succeeds_include s :
  succeeds (mercury_conf_param s)
  = defined "MERCURY_CONF_PARAM_H" s || resolvable s.
Proof.
  destruct (defined "MERCURY_CONF_PARAM_H" s) eqn:Hg.
  - rewrite (include_again _ Hg). reflexivity.
  - rewrite (include_first _ Hg), succeeds_resolvable. apply resolvable_guard.
Qed.

(** X3. The header raises no error exactly when its guard macro is defined
    already, or the input passes every check: none of the seven derived
    macros is supplied; MR_HIGHLEVEL_CODE comes with no low-level debugging
    mode, deep profiling or term sizes; MR_THREAD_SAFE comes with none of the
    four statistics; minimal model tabling comes with MR_CONSERVATIVE_GC
    itself; no reclamation macro comes with a collector; and
    MR_DEBUG_AGC_ALL, where defined, has an integer body. *)
Theorem X3_resolves_iff_resolvable (initial platform : FlagStore) :
  succeeds (Include initial platform)
  = defined "MERCURY_CONF_PARAM_H" (initial ∪ platform)
    || resolvable (initial ∪ platform).
Proof. apply succeeds_include. Qed.

(** X5. A derived macro given by the caller or the platform is refused on
    a first inclusion: with any of the seven reserved macros supplied and
    the guard macro not defined, the header raises an error, whatever else
    is supplied. *)
Theorem X5_reserved_macros_are_refused (initial platform : FlagStore) m :
  In m reserved_macros ->
  supplied m initial platform ->
  ~ supplied "MERCURY_CONF_PARAM_H" initial platform ->
  succeeds (Include initial platform) = false.
Proof.
  unfold Include, supplied. intros Hin Hs Hg. apply not_true_is_false in Hg.
  rewrite succeeds_include, Hg. apply (reserved_not_resolvable _ m Hin Hs).
Qed.

Lemma X5_witness :
  succeeds (Include (flags ["MR_INSERT_LABELS"]) ∅) = false.
Proof.
  apply (X5_reserved_macros_are_refused (flags ["MR_INSERT_LABELS"]) ∅
           "MR_INSERT_LABELS").
  - cbv [reserved_macros In]. tauto.
  - vm_compute. reflexivity.
  - vm_compute. discriminate.
Defined.

(** ** The body does not look at the guard macro *)

Section Blind.
Variable g : string.

Lemma cond_blind_defined m : m <> g -> cond_blind g (defined m).
Proof. intros H b s. apply defined_insert_ne. congruence. Qed.

Lemma cond_blind_not c : cond_blind g c -> cond_blind g (cnot c).
Proof. intros H b s. unfold cnot. rewrite H. reflexivity. Qed.

Lemma cond_blind_or c1 c2 :
  cond_blind g c1 -> cond_blind g c2 -> cond_blind g (cor c1 c2).
Proof. intros H1 H2 b s. unfold cor. rewrite H1, H2. reflexivity. Qed.

Lemma cond_blind_and c1 c2 :
  cond_blind g c1 -> cond_blind g c2 -> cond_blind g (cand c1 c2).
Proof. intros H1 H2 b s. unfold cand. rewrite H1, H2. reflexivity. Qed.

Lemma blind_skip : blind g skip.
Proof. intros b s. reflexivity. Qed.

Lemma blind_error msg : blind g (error msg).
Proof. intros b s. reflexivity. Qed.

Lemma blind_define m b' : m <> g -> blind g (define m b').
Proof.
  intros H b s. unfold define. rewrite insert_insert_ne by exact H.
  reflexivity.
Qed.

Lemma blind_undef m : m <> g -> blind g (undef m).
Proof.
  intros H b s. unfold undef. rewrite delete_insert_ne by exact H.
  reflexivity.
Qed.

Lemma blind_seq d1 d2 : blind g d1 -> blind g d2 -> blind g (seq d1 d2).
Proof.
  intros H1 H2 b s. unfold seq. rewrite H1.
  destruct (d1 s) as [s1|msg]; [apply H2 | reflexivity].
Qed.

Lemma blind_if_else c d1 d2 :
  cond_blind g c -> blind g d1 -> blind g d2 -> blind g (if_else c d1 d2).
Proof.
  intros Hc H1 H2 b s. unfold if_else. rewrite Hc.
  destruct (c s); [apply H1 | apply H2].
Qed.

Lemma blind_when c d : cond_blind g c -> blind g d -> blind g (when c d).
Proof. intros Hc H. apply blind_if_else; [exact Hc | exact H | apply blind_skip]. Qed.

Lemma blind_when_value m d : m <> g -> blind g d -> blind g (when_value m d).
Proof.
  intros Hm H b s. unfold when_value. rewrite lookup_insert_ne by congruence.
  destruct (s !! m) as [[|n]|]; [reflexivity | | reflexivity].
  destruct (cpp_true n); [apply H | reflexivity].
Qed.

Lemma blind_run ds : Forall (blind g) ds -> blind g (run ds).
Proof.
  induction 1 as [|d ds Hd _ IH]; simpl.
  - apply blind_skip.
  - apply blind_seq; assumption.
Qed.
End Blind.

Lemma body_blind_to_guard : blind "MERCURY_CONF_PARAM_H" (run rules).
Proof.
  apply blind_run.
  cbv [rules Conf.checks_and_implied Conf.determined Conf.platform_specific app].
  repeat (constructor;
    [ autounfold with conf;
      repeat first
        [ apply blind_seq
        | apply blind_when
        | apply blind_if_else
        | apply blind_when_value; [discriminate|]
        | apply blind_error
        | apply blind_skip
        | apply blind_define; discriminate
        | apply blind_undef; discriminate
        | apply cond_blind_or
        | apply cond_blind_and
        | apply cond_blind_not
        | apply cond_blind_defined; discriminate ] | ]).
  constructor.
Qed.

(** On a table without the guard macro the header does what its body does,
    and adds the guard macro. *)
Lemma first_inclusion s :
  defined "MERCURY_CONF_PARAM_H" s = false ->
  mercury_conf_param s
  = match mercury_conf_param_body s with
    | Ok r => Ok (<["MERCURY_CONF_PARAM_H" := Empty]> r)
    | Err msg => Err msg
    end.
Proof.
  intros H. rewrite (include_first _ H). apply body_blind_to_guard.
Qed.

(** X16. The include guard: with the guard macro defined already the
    header leaves the table as it is, whatever the table holds; without it,
    the header raises the error its body raises, or leaves the table its
    body resolves with the guard macro added. *)
Theorem X16_include_guard (initial platform : FlagStore) :
  (supplied "MERCURY_CONF_PARAM_H" initial platform ->
   Include initial platform = Ok (initial ∪ platform)) /\
  (~ supplied "MERCURY_CONF_PARAM_H" initial platform ->
   Include initial platform
   = match Resolve initial platform with
     | Ok r => Ok (<["MERCURY_CONF_PARAM_H" := Empty]> r)
     | Err msg => Err msg
     end).
Proof.
  unfold Include, Resolve, supplied. split.
  - apply include_again.
  - intros H. apply first_inclusion, not_true_is_false, H.
Qed.

Lemma X16_witness :
  succeeds (Include (flags ["MERCURY_CONF_PARAM_H"; "MR_STACK_TRACE"]) ∅) = true /\
  error_of (Include (flags ["MR_STACK_TRACE"]) ∅)
  = Some (ReservedFlagSetExternally "STACK_TRACE").
Proof.
  split.
  - rewrite (proj1 (X16_include_guard
                      (flags ["MERCURY_CONF_PARAM_H"; "MR_STACK_TRACE"]) ∅));
      [reflexivity|]. vm_compute. reflexivity.
  - rewrite (proj2 (X16_include_guard (flags ["MR_STACK_TRACE"]) ∅)).
    + vm_compute. reflexivity.
    + vm_compute. discriminate.
Defined.
